(** * OSINT toolkit: validator, source adapters, report builder, report store

    A shallow embedding of [email_toolkit/osint.py] and of the report and
    email-check routes of [app.py], with the properties of the aggregation
    engine proved (or refuted) on it.

    Conventions of the embedding.
    - A Python [str] is a [string]; a character is an [ascii], read as a code
      point below 256.  Message literals are kept as they are in the source.
    - A JSON-shaped Python value (what [resp.json()] returns, what the
      adapters build, what [jsonify] and [json.dump] take) is a [json], with
      integers for numbers.  A [dict] is an association list in insertion
      order with unique keys.
    - Everything outside the repository (the [validators] package, the
      process environment, the network, child processes, the clock, the JSON
      codec, the text of interpreter exceptions) is a field of [platform].
    - Effects are threaded through a [world]: the files under the report
      directory and the trace of what was done to the outside.
    - Logging is not modelled. *)

From Stdlib Require Import Ascii String ZArith Lia Bool.
From stdpp Require Import gmap strings list pretty.
From stdpp Require Import sorting.

Open Scope string_scope.

(** ** Python strings *)

Module Py.

Definition ord (c : ascii) : N := N_of_ascii c.

Definition between (lo hi : N) (c : ascii) : bool :=
  ((lo <=? ord c) && (ord c <=? hi))%N.

Definition LF : ascii := ascii_of_N 10.

(** [str.isspace] on one character (code points below 256). *)
Definition isspace (c : ascii) : bool :=
  between 9 13 c || between 28 32 c || (ord c =? 133)%N || (ord c =? 160)%N.

Fixpoint lstrip (s : string) : string :=
  match s with
  | String c s' => if isspace c then lstrip s' else s
  | EmptyString => EmptyString
  end.

Fixpoint rstrip (s : string) : string :=
  match s with
  | EmptyString => EmptyString
  | String c s' =>
      match rstrip s' with
      | EmptyString => if isspace c then EmptyString else String c EmptyString
      | r => String c r
      end
  end.

(** [s.strip()] *)
Definition strip (s : string) : string := lstrip (rstrip s).

(** [s.replace(old, '')] for a one-character [old]. *)
Fixpoint remove_char (old : ascii) (s : string) : string :=
  match s with
  | EmptyString => EmptyString
  | String c s' =>
      if Ascii.eqb c old then remove_char old s' else String c (remove_char old s')
  end.

(** [c in s] for a one-character [c]. *)
Fixpoint contains_char (c : ascii) (s : string) : bool :=
  match s with
  | EmptyString => false
  | String a s' => Ascii.eqb a c || contains_char c s'
  end.

(** [s.replace(old, new)] for a one-character [old]. *)
Fixpoint replace_char (old : ascii) (new : string) (s : string) : string :=
  match s with
  | EmptyString => EmptyString
  | String c s' =>
      if Ascii.eqb c old then new +:+ replace_char old new s'
      else String c (replace_char old new s')
  end.

(** [s.endswith(suffix)] *)
Fixpoint endswith (s suffix : string) : bool :=
  String.eqb s suffix ||
  match s with
  | EmptyString => false
  | String _ s' => endswith s' suffix
  end.

(** [s.startswith(c)] for a one-character [c]. *)
Definition startswith_char (c : ascii) (s : string) : bool :=
  match s with
  | String a _ => Ascii.eqb a c
  | EmptyString => false
  end.

Definition lower_char (c : ascii) : ascii :=
  if between 65 90 c || (between 192 222 c && negb (ord c =? 215)%N)
  then ascii_of_N (ord c + 32) else c.

(** [s.lower()] *)
Fixpoint lower (s : string) : string :=
  match s with
  | EmptyString => EmptyString
  | String c s' => String (lower_char c) (lower s')
  end.

Definition first_char (s : string) : option ascii :=
  match s with
  | String c _ => Some c
  | EmptyString => None
  end.

Fixpoint last_char (s : string) : option ascii :=
  match s with
  | EmptyString => None
  | String c EmptyString => Some c
  | String _ s' => last_char s'
  end.

(** [all(p(c) for c in s)] *)
Fixpoint all_chars (p : ascii → bool) (s : string) : bool :=
  match s with
  | EmptyString => true
  | String c s' => p c && all_chars p s'
  end.

(** The characters of [s] as one-character strings, as [for c in s] yields
    them. *)
Fixpoint chars (s : string) : list string :=
  match s with
  | EmptyString => []
  | String c s' => String c EmptyString :: chars s'
  end.

(** [os.path.join(a, b)] on POSIX. *)
Definition path_join (a b : string) : string :=
  if startswith_char "/" b then b
  else if String.eqb a "" || endswith a "/" then a +:+ b
  else a +:+ "/" +:+ b.

(** [os.path.basename(p)] on POSIX: what follows the last slash. *)
Fixpoint basename (p : string) : string :=
  match p with
  | EmptyString => EmptyString
  | String c p' => if contains_char "/" p then basename p' else p
  end.

End Py.

(** ** JSON-shaped values *)

#[warnings="-register-all"]
Inductive json : Type :=
| JNull
| JBool (b : bool)
| JNum (n : Z)
| JStr (s : string)
| JList (items : list json)
| JDict (entries : list (string * json)).

Module Dict.

(** The source's dicts have string keys. *)
Definition t : Type := list (string * json).

(** [d.get(k)] *)
Fixpoint get {V : Type} (k : string) (d : list (string * V)) : option V :=
  match d with
  | [] => None
  | (k', v) :: d' => if String.eqb k' k then Some v else get k d'
  end.

(** [k in d] *)
Definition mem {V : Type} (k : string) (d : list (string * V)) : bool :=
  match get k d with Some _ => true | None => false end.

(** [d.get(k, default)] *)
Definition get_default {V : Type} (k : string) (default : V)
    (d : list (string * V)) : V :=
  match get k d with Some v => v | None => default end.

(** [d[k] = v]: an existing key keeps its place. *)
Fixpoint set {V : Type} (k : string) (v : V) (d : list (string * V))
  : list (string * V) :=
  match d with
  | [] => [(k, v)]
  | (k', v') :: d' =>
      if String.eqb k' k then (k', v) :: d' else (k', v') :: set k v d'
  end.

Definition keys {V : Type} (d : list (string * V)) : list string := map fst d.
Definition values {V : Type} (d : list (string * V)) : list V := map snd d.

End Dict.

(** ** Python values at the places where the source inspects them *)

Module PyVal.

(** [bool(v)] *)
Definition truthy (v : json) : bool :=
  match v with
  | JNull => false
  | JBool b => b
  | JNum n => negb (n =? 0)%Z
  | JStr s => negb (String.eqb s "")
  | JList items => match items with [] => false | _ => true end
  | JDict entries => match entries with [] => false | _ => true end
  end.

(** [isinstance(v, list)] *)
Definition is_list (v : json) : bool :=
  match v with JList _ => true | _ => false end.

Definition is_str_eq (k : string) (v : json) : bool :=
  match v with JStr s => String.eqb s k | _ => false end.

(** [sub in s] on strings. *)
Fixpoint contains_sub (sub s : string) : bool :=
  String.prefix sub s ||
  match s with
  | EmptyString => false
  | String _ s' => contains_sub sub s'
  end.

(** [len(v)] *)
Definition len (v : json) : option Z :=
  match v with
  | JStr s => Some (Z.of_nat (String.length s))
  | JList items => Some (Z.of_nat (length items))
  | JDict entries => Some (Z.of_nat (length entries))
  | _ => None
  end.

(** [k in v] for a string [k]; [None] where Python raises [TypeError]. *)
Definition contains (k : string) (v : json) : option bool :=
  match v with
  | JDict entries => Some (Dict.mem k entries)
  | JList items => Some (existsb (is_str_eq k) items)
  | JStr s => Some (contains_sub k s)
  | _ => None
  end.

End PyVal.

(** ** The outside world *)

(** Exceptions, by the classes the source tells apart; the rest by name. *)
Inductive pyexn : Type :=
| RequestsTimeout
| TimeoutExpired
| FileNotFoundError
| CalledProcessError
| TypeError
| AttributeError
| KeyError
| IndexError
| OtherException (name : string).

Inductive result (A : Type) : Type :=
| Ok (a : A)
| Raise (e : pyexn).
Arguments Ok {A} a.
Arguments Raise {A} e.

Definition rbind {A B : Type} (r : result A) (k : A → result B) : result B :=
  match r with
  | Ok a => k a
  | Raise e => Raise e
  end.

Record http_response : Type := {
  status_code : Z;
  text : string;
  json_body : result json            (* [resp.json()] *)
}.

Record completed_process : Type := {
  returncode : Z;
  stdout : string;
  stderr : string
}.

(** What [subprocess.run] is given: an argument list, or one string naming
    the program. *)
Inductive argv : Type :=
| Args (args : list string)
| Program (path : string).

Inductive event : Type :=
| HttpGet (url : string) (headers params : list (string * string)) (timeout : Z)
| Spawn (cmd : argv) (timeout : option Z)
| Sleep (seconds : Z)
| FsExists (path : string)
| FsRead (path : string)
| FsWrite (path : string).

Record platform (content : Type) : Type := {
  validators_email : string → bool;          (* [validators.email] accepts *)
  environ_get : string → option string;      (* [os.environ.get] *)
  session_get : string → list (string * string) → list (string * string) →
                result http_response;        (* [requests.Session.get] *)
  subprocess_run : argv → result completed_process;
  writable : string → bool;                  (* [open(path, 'w')] succeeds *)
  json_dump : json → content;
  json_load : content → option json;
  now_isoformat : string;                    (* [datetime.now().isoformat()] *)
  now_stamp : string;                        (* [strftime("%Y%m%d_%H%M%S")] *)
  str_exn : pyexn → string;                  (* [str(e)] *)
  py_str : json → string;                    (* [str(v)] of a value that is
                                                not a string *)
  last_breach_name : json → result json      (* [max(breaches, key=lambda x:
                                                x.get('BreachDate', ''))['Name']] *)
}.
Arguments validators_email {content} _ _.
Arguments environ_get {content} _ _.
Arguments session_get {content} _ _ _ _.
Arguments subprocess_run {content} _ _.
Arguments writable {content} _ _.
Arguments json_dump {content} _ _.
Arguments json_load {content} _ _.
Arguments now_isoformat {content} _.
Arguments now_stamp {content} _.
Arguments str_exn {content} _ _.
Arguments py_str {content} _ _.
Arguments last_breach_name {content} _ _.

Record world (content : Type) : Type := {
  files : gmap string content;
  trace : list event
}.
Arguments files {content} _.
Arguments trace {content} _.
Arguments Build_world {content} _ _.

(** A computation reads and updates the world. *)
Definition M (content A : Type) : Type := world content → A * world content.

Definition ret {content A : Type} (a : A) : M content A := λ w, (a, w).

Definition bind {content A B : Type} (k : A → M content B) (c : M content A)
  : M content B :=
  λ w, let (a, w') := c w in k a w'.

#[global] Instance M_ret {content : Type} : MRet (M content) := @ret content.
#[global] Instance M_bind {content : Type} : MBind (M content) := @bind content.

Definition emit {content : Type} (e : event) : M content unit :=
  λ w, (tt, Build_world (files w) (trace w ++ [e])).

(** Runs the monadic steps of a goal. *)
Ltac run_m := unfold mbind, mret, M_bind, M_ret, bind, ret, emit; simpl.

(** ** [email_toolkit/osint.py] *)

Section OSINT.

Context {content : Type} (E : platform content).

(** The stored text of the source is damaged at two places, where a quote
    is followed by a line break: at the end of the pattern of
    [validate_username] and at the eighth entry of [dangerous_chars].  The
    pattern is read with its end anchor, [^[a-zA-Z0-9_.-]+$].  The eighth
    entry is left open: what is proved about [sanitize_input] holds
    whichever character it is (the dollar sign or the line feed). *)
Variable eighth_dangerous_char : ascii.

(** *** OSINTValidator *)

Definition validate_email (email : string) : bool :=
  if String.eqb email "" then false else validators_email E email.

(** The class [[a-zA-Z0-9_.-]]. *)
Definition username_char (c : ascii) : bool :=
  Py.between 97 122 c || Py.between 65 90 c || Py.between 48 57 c
  || Ascii.eqb c "_" || Ascii.eqb c "." || Ascii.eqb c "-".

(** Where [$] matches (no MULTILINE flag): at the end of the string, and
    just before a line feed that ends the string. *)
Definition at_dollar (rest : string) : bool :=
  match rest with
  | EmptyString => true
  | String c EmptyString => Ascii.eqb c Py.LF
  | String _ (String _ _) => false
  end.

(** [re.match] of [^[a-zA-Z0-9_.-]+$] at the start of [s]: one character
    of the class, then either more of the pattern or the anchor. *)
Fixpoint match_username_pattern (s : string) : bool :=
  match s with
  | EmptyString => false
  | String c rest =>
      username_char c && (match_username_pattern rest || at_dollar rest)
  end.

Definition validate_username (username : string) : bool :=
  if String.eqb username "" || (String.length username <? 3)%nat then false
  else match_username_pattern username.

Definition dangerous_chars : list ascii :=
  [ "<"; ">"; ascii_of_N 34; "'"; "&"; "|"; ";"; eighth_dangerous_char; "`" ]%char.

Definition sanitize_input (input_str : string) : string :=
  if String.eqb input_str "" then ""
  else
    Py.strip
      (fold_left (λ sanitized char, Py.remove_char char sanitized)
                 dangerous_chars input_str).

(** *** OSINTReporter *)

Record OSINTReporter : Type := { reports_dir : string }.

Definition _generate_summary (results : Dict.t) : json :=
  let summary : Dict.t :=
    [ ("risk_level", JStr "low"); ("breaches_found", JBool false);
      ("social_accounts", JNum 0); ("email_reputation", JStr "unknown") ] in
  match Dict.get "haveibeenpwned" results with
  | Some v =>
      if PyVal.truthy v then
        match v with
        | JList items =>
            if (0 <? length items)%nat then
              let summary := Dict.set "breaches_found" (JBool true) summary in
              JDict (Dict.set "risk_level"
                       (JStr (if (3 <? length items)%nat then "high" else "medium"))
                       summary)
            else JDict summary
        | _ => JDict summary
        end
      else JDict summary
  | None => JDict summary
  end.

(** [len([r for r in values if p(r)])]; [TypeError] where [p] raises. *)
Fixpoint count_where (p : json → option bool) (values : list json) : result Z :=
  match values with
  | [] => Ok 0%Z
  | r :: rest =>
      match p r with
      | None => Raise TypeError
      | Some b =>
          rbind (count_where p rest) (λ n, Ok (if b then 1 + n else n)%Z)
      end
  end.

Definition generate_report (target : string) (results : Dict.t) : result json :=
  let summary := _generate_summary results in
  rbind (count_where (λ r, negb <$> PyVal.contains "error" r) (Dict.values results))
    (λ successful,
  rbind (count_where (PyVal.contains "error") (Dict.values results))
    (λ failed,
  Ok (JDict
        [ ("target", JStr target);
          ("timestamp", JStr (now_isoformat E));
          ("summary", summary);
          ("detailed_results", JDict results);
          ("metadata",
           JDict [ ("total_sources", JNum (Z.of_nat (length results)));
                   ("successful_sources", JNum successful);
                   ("failed_sources", JNum failed) ]) ]))).

(** [report['target'].replace('@', '_').replace('.', '_')] *)
Definition target_slug (report : json) : result string :=
  match report with
  | JDict entries =>
      match Dict.get "target" entries with
      | Some (JStr target) =>
          Ok (Py.replace_char "." "_" (Py.replace_char "@" "_" target))
      | Some _ => Raise AttributeError
      | None => Raise KeyError
      end
  | _ => Raise TypeError
  end.

Definition generated_filename (report : json) : result string :=
  rbind (target_slug report)
    (λ slug, Ok ("osint_report_" +:+ slug +:+ "_" +:+ now_stamp E +:+ ".json")).

Definition write_file (path : string) (data : content) : M content unit :=
  λ w, (tt, Build_world (<[path := data]> (files w)) (trace w)).

Definition save_report (self : OSINTReporter) (report : json)
    (filename : option string) : M content (result string) :=
  let name :=
    match filename with
    | Some f => if String.eqb f "" then generated_filename report else Ok f
    | None => generated_filename report
    end in
  match name with
  | Raise e => mret (Raise e)
  | Ok filename =>
      let filepath := Py.path_join (reports_dir self) filename in
      _ ← emit (FsWrite filepath);
      if writable E filepath then
        _ ← write_file filepath (json_dump E report);
        mret (Ok filepath)
      else mret (Raise (OtherException "OSError"))
  end.

(** *** EnhancedOSINT: HTTP adapters *)

Definition err (message : string) : json := JDict [("error", JStr message)].

Definition invalid_email : json := err "عنوان بريد إلكتروني غير صحيح".

(** [except Exception as e] of the HTTP adapters. *)
Definition unexpected (e : pyexn) : json :=
  err ("خطأ غير متوقع: " +:+ str_exn E e).

Definition catch (handler : pyexn → json) (r : result json) : json :=
  match r with
  | Ok outcome => outcome
  | Raise e => handler e
  end.

(** [self.session.get(url, headers=..., params=..., timeout=...)] *)
Definition http_get (url : string) (headers params : list (string * string))
    (timeout : Z) : M content (result http_response) :=
  _ ← emit (HttpGet url headers params timeout);
  mret (session_get E url headers params).

(** [os.environ.get(name)] followed by [if not api_key]. *)
Definition api_key (name : string) : option string :=
  match environ_get E name with
  | Some key => if String.eqb key "" then None else Some key
  | None => None
  end.

(** [v.get(k, default)]: only a dict has the method. *)
Definition get_method (k : string) (default : json) (v : json) : result json :=
  match v with
  | JDict entries => Ok (Dict.get_default k default entries)
  | _ => Raise AttributeError
  end.

(** [v[k]] for a string [k]. *)
Definition getitem (k : string) (v : json) : result json :=
  match v with
  | JDict entries =>
      match Dict.get k entries with
      | Some x => Ok x
      | None => Raise KeyError
      end
  | _ => Raise TypeError
  end.

Definition raising {A : Type} (o : option A) : result A :=
  match o with
  | Some a => Ok a
  | None => Raise TypeError
  end.

(** A value inside an f-string. *)
Definition format_value (v : json) : string :=
  match v with
  | JStr s => s
  | _ => py_str E v
  end.

Definition haveibeenpwned (email : string) : M content json :=
  if negb (validate_email email) then mret invalid_email
  else
    match api_key "HIBP_API_KEY" with
    | None => mret (err "مفتاح API مطلوب لـ HaveIBeenPwned")
    | Some key =>
        let headers := [("hibp-api-key", key); ("User-Agent", "OSINT-Toolkit/2.0")] in
        let url := "https://haveibeenpwned.com/api/v3/breachedaccount/" +:+ email
                   +:+ "?truncateResponse=false" in
        r ← http_get url headers [] 15;
        mret (catch (λ e, match e with
                          | RequestsTimeout => err "انتهت مهلة الاتصال"
                          | _ => unexpected e
                          end)
          (rbind r (λ resp,
             if (status_code resp =? 200)%Z then
               rbind (json_body resp) (λ breaches,
               rbind (raising (PyVal.len breaches)) (λ breach_count,
               rbind (if PyVal.truthy breaches then last_breach_name E breaches
                      else Ok JNull) (λ last_breach,
               Ok (JDict [ ("status", JStr "found");
                           ("breach_count", JNum breach_count);
                           ("breaches", breaches);
                           ("last_breach", last_breach) ]))))
             else if (status_code resp =? 404)%Z then
               Ok (JDict [ ("status", JStr "clean"); ("breach_count", JNum 0);
                           ("message", JStr "لم يتم العثور على تسريبات") ])
             else
               Ok (err ("خطأ API: " +:+ pretty (status_code resp) +:+ " - "
                        +:+ text resp)))))
    end.

Definition hunterio (email : string) : M content json :=
  if negb (validate_email email) then mret invalid_email
  else
    match api_key "HUNTER_API_KEY" with
    | None => mret (err "مفتاح API مطلوب لـ Hunter.io")
    | Some key =>
        let params := [("email", email); ("api_key", key)] in
        r ← http_get "https://api.hunter.io/v2/email-verifier" [] params 15;
        mret (catch unexpected
          (rbind r (λ resp,
             let api_error := Ok (err ("خطأ API: " +:+ pretty (status_code resp))) in
             if (status_code resp =? 200)%Z then
               rbind (json_body resp) (λ data,
               rbind (raising (PyVal.contains "data" data)) (λ has_data,
               if has_data : bool then
                 rbind (getitem "data" data) (λ result,
                 rbind (get_method "status" (JStr "unknown") result) (λ status,
                 rbind (get_method "result" (JStr "unknown") result) (λ result_,
                 rbind (get_method "score" (JNum 0) result) (λ score,
                 rbind (get_method "mx_records" (JBool false) result) (λ mx_records,
                 rbind (get_method "smtp_server" (JBool false) result) (λ smtp_server,
                 rbind (get_method "sources" (JList []) result) (λ sources,
                 Ok (JDict [ ("status", status); ("result", result_);
                             ("score", score); ("mx_records", mx_records);
                             ("smtp_server", smtp_server);
                             ("sources", sources) ]))))))))
               else api_error))
             else api_error)))
    end.

Definition leakcheck (email : string) : M content json :=
  if negb (validate_email email) then mret invalid_email
  else
    match api_key "LEAKCHECK_API_KEY" with
    | None => mret (err "مفتاح API مطلوب لـ LeakCheck")
    | Some key =>
        let params := [("key", key); ("check", email); ("type", "email")] in
        r ← http_get "https://leakcheck.io/api/public" [] params 15;
        mret (catch unexpected
          (rbind r (λ resp,
             if (status_code resp =? 200)%Z then json_body resp
             else Ok (err ("خطأ API: " +:+ pretty (status_code resp))))))
    end.

Definition not_found : json :=
  JDict [ ("status", JStr "not_found");
          ("message", JStr "لم يتم العثور على معلومات") ].

Definition emailrep (email : string) : M content json :=
  if negb (validate_email email) then mret invalid_email
  else
    r ← http_get ("https://emailrep.io/" +:+ email) [] [] 15;
    mret (catch unexpected
      (rbind r (λ resp,
         if (status_code resp =? 200)%Z then
           rbind (json_body resp) (λ data,
           rbind (get_method "reputation" (JStr "unknown") data) (λ reputation,
           rbind (get_method "suspicious" (JBool false) data) (λ suspicious,
           rbind (get_method "references" (JNum 0) data) (λ references,
           rbind (get_method "blacklisted" (JBool false) data) (λ blacklisted,
           rbind (get_method "malicious_activity" (JBool false) data) (λ malicious,
           rbind (get_method "credentials_leaked" (JBool false) data) (λ leaked,
           rbind (get_method "first_seen" JNull data) (λ first_seen,
           rbind (get_method "last_seen" JNull data) (λ last_seen,
           Ok (JDict [ ("reputation", reputation); ("suspicious", suspicious);
                       ("references", references); ("blacklisted", blacklisted);
                       ("malicious_activity", malicious);
                       ("credentials_leaked", leaked);
                       ("first_seen", first_seen);
                       ("last_seen", last_seen) ]))))))))))
         else if (status_code resp =? 404)%Z then Ok not_found
         else Ok (err ("خطأ API: " +:+ pretty (status_code resp)))))).

(** [data.get(outer, {}).get(inner, '')] *)
Definition get2 (outer inner : string) (data : json) : result json :=
  rbind (get_method outer (JDict []) data) (get_method inner (JStr "")).

Definition clearbit (email : string) : M content json :=
  if negb (validate_email email) then mret invalid_email
  else
    match api_key "CLEARBIT_API_KEY" with
    | None => mret (err "مفتاح API مطلوب لـ Clearbit")
    | Some key =>
        let headers := [("Authorization", "Bearer " +:+ key)] in
        let url := "https://person.clearbit.com/v2/people/find?email=" +:+ email in
        r ← http_get url headers [] 15;
        mret (catch unexpected
          (rbind r (λ resp,
             if (status_code resp =? 200)%Z then
               rbind (json_body resp) (λ data,
               rbind (get2 "name" "givenName" data) (λ given,
               rbind (get2 "name" "familyName" data) (λ family,
               rbind (get2 "geo" "city" data) (λ city,
               rbind (get2 "employment" "name" data) (λ company,
               rbind (get2 "employment" "title" data) (λ title,
               rbind (get2 "linkedin" "handle" data) (λ linkedin,
               rbind (get2 "twitter" "handle" data) (λ twitter,
               rbind (get2 "github" "handle" data) (λ github,
               Ok (JDict [ ("name",
                            JStr (Py.strip (format_value given +:+ " "
                                            +:+ format_value family)));
                           ("location", city); ("company", company);
                           ("title", title); ("linkedin", linkedin);
                           ("twitter", twitter); ("github", github) ]))))))))))
             else if (status_code resp =? 404)%Z then Ok not_found
             else
               Ok (err ("خطأ API: " +:+ pretty (status_code resp) +:+ " - "
                        +:+ text resp)))))
    end.

(** *** EnhancedOSINT: process adapters *)

(** [subprocess.run(cmd, capture_output=True, ...)] *)
Definition run (cmd : argv) (timeout : option Z)
  : M content (result completed_process) :=
  _ ← emit (Spawn cmd timeout);
  mret (subprocess_run E cmd).

(** The probe runs with [check=True]: a non-zero exit raises
    [CalledProcessError], which the probe catches like a missing file. *)
Definition _command_exists (command : string) : M content (result bool) :=
  r ← run (Args [command; "--version"]) None;
  mret (match r with
        | Ok p => Ok (returncode p =? 0)%Z
        | Raise CalledProcessError | Raise FileNotFoundError => Ok false
        | Raise e => Raise e
        end).

(** [cmd[0]] *)
Definition first_arg (cmd : argv) : result string :=
  match cmd with
  | Args (a :: _) => Ok a
  | Program (String c _) => Ok (String c EmptyString)
  | Args [] | Program EmptyString => Raise IndexError
  end.

Definition execution_error (e : pyexn) : json :=
  err ("خطأ في التنفيذ: " +:+ str_exn E e).

(** The three [except] clauses of [safe_subprocess_call], once [cmd[0]] is
    known. *)
Definition subprocess_handler (cmd0 : string) (timeout : Z) (e : pyexn) : json :=
  match e with
  | TimeoutExpired =>
      err ("انتهت مهلة تنفيذ الأمر (" +:+ pretty timeout +:+ " ثانية)")
  | FileNotFoundError => err ("الأمر غير موجود: " +:+ cmd0)
  | _ => execution_error e
  end.

Definition safe_subprocess_call (cmd : argv) (timeout : Z) : M content json :=
  match first_arg cmd with
  | Raise e => mret (execution_error e)
  | Ok cmd0 =>
      found ← _command_exists cmd0;
      match found with
      | Raise e => mret (subprocess_handler cmd0 timeout e)
      | Ok false => mret (err ("الأمر غير متوفر: " +:+ cmd0))
      | Ok true =>
          r ← run cmd (Some timeout);
          mret (match r with
                | Raise e => subprocess_handler cmd0 timeout e
                | Ok p =>
                    if (returncode p =? 0)%Z then
                      JDict [ ("output", JStr (stdout p));
                              ("status", JStr "success") ]
                    else
                      JDict [ ("error",
                               JStr (if String.eqb (stderr p) ""
                                     then "فشل في تنفيذ الأمر" else stderr p));
                              ("status", JStr "failed") ]
                end)
      end
  end.

Definition socialscan (email : string) : M content json :=
  if negb (validate_email email) then mret invalid_email
  else safe_subprocess_call (Args ["socialscan"; email]) 120.

Definition holehe (email : string) : M content json :=
  if negb (validate_email email) then mret invalid_email
  else safe_subprocess_call (Args ["holehe"; email]) 120.

Definition invalid_username : json := err "اسم مستخدم غير صحيح".

Definition sherlock (username : string) : M content json :=
  if negb (validate_username username) then mret invalid_username
  else
    let username := sanitize_input username in
    safe_subprocess_call (Args ["sherlock"; username; "--print-found"]) 180.

Definition maigret (username : string) : M content json :=
  if negb (validate_username username) then mret invalid_username
  else
    let username := sanitize_input username in
    safe_subprocess_call (Args ["maigret"; username; "--print-found"]) 180.

(** *** EnhancedOSINT: the search *)

Inductive source : Type :=
| Haveibeenpwned | Hunterio | Leakcheck | Emailrep | Clearbit
| Holehe | Socialscan | Sherlock | Maigret.

Definition source_name (s : source) : string :=
  match s with
  | Haveibeenpwned => "haveibeenpwned"
  | Hunterio => "hunterio"
  | Leakcheck => "leakcheck"
  | Emailrep => "emailrep"
  | Clearbit => "clearbit"
  | Holehe => "holehe"
  | Socialscan => "socialscan"
  | Sherlock => "sherlock"
  | Maigret => "maigret"
  end.

Definition invoke (s : source) (target : string) : M content json :=
  match s with
  | Haveibeenpwned => haveibeenpwned target
  | Hunterio => hunterio target
  | Leakcheck => leakcheck target
  | Emailrep => emailrep target
  | Clearbit => clearbit target
  | Holehe => holehe target
  | Socialscan => socialscan target
  | Sherlock => sherlock target
  | Maigret => maigret target
  end.

Definition email_sources : list source :=
  [Haveibeenpwned; Hunterio; Leakcheck; Emailrep; Clearbit; Holehe; Socialscan].

Definition username_sources : list source := [Sherlock; Maigret].

(** [for source_name, source_func in sources.items(): ...]; the email loop
    sleeps one second after each source, the username loop does not. *)
Fixpoint search_sources (pause : bool) (sources : list source) (target : string)
    (results : Dict.t) : M content Dict.t :=
  match sources with
  | [] => mret results
  | s :: rest =>
      outcome ← invoke s target;
      _ ← (if pause then emit (Sleep 1) else mret tt);
      search_sources pause rest target (Dict.set (source_name s) outcome results)
  end.

(** [self.reporter = OSINTReporter()] *)
Definition reporter : OSINTReporter := {| reports_dir := "./reports" |}.

Definition unsupported_target : json := err "نوع الهدف غير مدعوم".

Definition search_error (e : pyexn) : json :=
  err ("خطأ في البحث الشامل: " +:+ str_exn E e).

Definition classify (target target_type : string) : option string :=
  if String.eqb target_type "auto" then
    if validate_email target then Some "email"
    else if validate_username target then Some "username"
    else None
  else Some target_type.

Definition comprehensive_search (target target_type : string) : M content json :=
  match classify target target_type with
  | None => mret unsupported_target
  | Some target_type =>
      results ←
        (if String.eqb target_type "email" then
           search_sources true email_sources target []
         else if String.eqb target_type "username" then
           search_sources false username_sources target []
         else mret []);
      match generate_report target results with
      | Raise e => mret (search_error e)
      | Ok report =>
          saved ← save_report reporter report None;
          mret (match saved with
                | Raise e => search_error e
                | Ok report_path =>
                    JDict [ ("target", JStr target);
                            ("target_type", JStr target_type);
                            ("results", JDict results);
                            ("report", report);
                            ("report_saved_to", JStr report_path);
                            ("timestamp", JStr (now_isoformat E)) ]
                end)
      end
  end.

End OSINT.

(** ** [app.py]: the email check and the report routes *)

Section App.

Context {content : Type} (E : platform content).
Variable eighth_dangerous_char : ascii.

(** [jsonify(body), status] *)
Inductive response : Type :=
| Response (status : Z) (body : json).

Definition status_of (r : response) : Z :=
  match r with Response status _ => status end.

Definition failure (status : Z) (message : string) : response :=
  Response status (JDict [("success", JBool false); ("error", JStr message)]).

(** [Config.REPORTS_DIRECTORY], read back by
    [app.config.get('REPORTS_DIRECTORY', './reports')]. *)
Definition REPORTS_DIRECTORY : string :=
  match environ_get E "REPORTS_DIRECTORY" with
  | Some dir => dir
  | None => "./reports"
  end.

(** *** [api_email_check] *)

(** What [getattr(osint, name)] finds among the names that the class body
    and [__init__] of [EnhancedOSINT] define.  The attributes every Python
    object inherits are not listed. *)
Inductive attribute : Type :=
| Adapter (s : source)
| ComprehensiveSearch
| AsyncOsintSearch
| SafeSubprocessCall
| CommandExists
| AsyncSourceCall
| Init
| Field.

Definition source_of_name (name : string) : option source :=
  find (λ s, String.eqb (source_name s) name)
       [Haveibeenpwned; Hunterio; Leakcheck; Emailrep; Clearbit;
        Holehe; Socialscan; Sherlock; Maigret].

Definition getattr (name : string) : option attribute :=
  match source_of_name name with
  | Some s => Some (Adapter s)
  | None =>
      if String.eqb name "comprehensive_search" then Some ComprehensiveSearch
      else if String.eqb name "async_osint_search" then Some AsyncOsintSearch
      else if String.eqb name "safe_subprocess_call" then Some SafeSubprocessCall
      else if String.eqb name "_command_exists" then Some CommandExists
      else if String.eqb name "_async_source_call" then Some AsyncSourceCall
      else if String.eqb name "__init__" then Some Init
      else if String.eqb name "validator" || String.eqb name "reporter"
              || String.eqb name "session" then Some Field
      else None
  end.

(** [hasattr(osint, name)] *)
Definition hasattr (name : string) : bool :=
  match getattr name with Some _ => true | None => false end.

(** What ends up as a value of [results]: something [jsonify] can
    serialise, or the coroutine object an [async def] returns when called. *)
Inductive pyobj : Type :=
| Plain (v : json)
| Coroutine.

(** [method(email)] *)
Definition call (a : attribute) (email : string) : M content (result pyobj) :=
  match a with
  | Adapter s =>
      v ← invoke E eighth_dangerous_char s email; mret (Ok (Plain v))
  | ComprehensiveSearch =>
      v ← comprehensive_search E eighth_dangerous_char email "auto";
      mret (Ok (Plain v))
  | AsyncOsintSearch => mret (Ok Coroutine)
  | SafeSubprocessCall =>
      v ← safe_subprocess_call E (Program email) 60; mret (Ok (Plain v))
  | CommandExists =>
      r ← _command_exists E email;
      mret (rbind r (λ b, Ok (Plain (JBool b))))
  | AsyncSourceCall | Init | Field => mret (Raise TypeError)
  end.

(** [for source in sources: if hasattr(osint, source): ...]; [hasattr]
    raises [TypeError] on a name that is not a string. *)
Fixpoint check_sources (sources : list json) (email : string)
    (results : list (string * pyobj))
  : M content (result (list (string * pyobj))) :=
  match sources with
  | [] => mret (Ok results)
  | JStr source :: rest =>
      match getattr source with
      | None => check_sources rest email results
      | Some a =>
          r ← call a email;
          let outcome :=
            match r with
            | Ok v => v
            | Raise e =>
                Plain (err ("خطأ في " +:+ source +:+ ": " +:+ str_exn E e))
            end in
          check_sources rest email (Dict.set source outcome results)
      end
  | _ :: _ => mret (Raise TypeError)
  end.

(** What [for source in sources] iterates over. *)
Definition iterate (sources : json) : result (list json) :=
  match sources with
  | JList items => Ok items
  | JStr s => Ok (JStr <$> Py.chars s)
  | JDict entries => Ok (JStr <$> Dict.keys entries)
  | _ => Raise TypeError
  end.

(** [jsonify] of the results: a coroutine cannot be serialised. *)
Fixpoint serialise (results : list (string * pyobj)) : result Dict.t :=
  match results with
  | [] => Ok []
  | (k, Plain v) :: rest => rbind (serialise rest) (λ d, Ok ((k, v) :: d))
  | (_, Coroutine) :: _ => Raise TypeError
  end.

Definition email_check_failed : response :=
  failure 500 "خطأ في فحص البريد الإلكتروني".

(** [data] is the parsed request body. *)
Definition api_email_check (data : json) : M content response :=
  let email_required := failure 400 "البريد الإلكتروني مطلوب" in
  if negb (PyVal.truthy data) then mret email_required
  else
    match PyVal.contains "email" data with
    | None => mret email_check_failed
    | Some false => mret email_required
    | Some true =>
        match getitem "email" data with
        | Ok (JStr raw) =>
            let email := Py.lower (Py.strip raw) in
            match get_method "sources"
                    (JList [JStr "haveibeenpwned"; JStr "emailrep"]) data with
            | Raise _ => mret email_check_failed
            | Ok sources =>
                if negb (validate_email E email) then
                  mret (failure 400 "عنوان بريد إلكتروني غير صحيح")
                else
                  match iterate sources with
                  | Raise _ => mret email_check_failed
                  | Ok names =>
                      r ← check_sources names email [];
                      mret (match rbind r serialise with
                            | Raise _ => email_check_failed
                            | Ok results =>
                                Response 200
                                  (JDict [ ("success", JBool true);
                                           ("email", JStr email);
                                           ("results", JDict results);
                                           ("timestamp", JStr (now_isoformat E)) ])
                            end)
                  end
            end
        | _ => mret email_check_failed
        end
    end.

(** *** [api_get_report] *)

(** [os.path.exists(path)] *)
Definition path_exists (path : string) : M content bool :=
  λ w, (bool_decide (is_Some (files w !! path)),
        Build_world (files w) (trace w ++ [FsExists path])).

(** [open(path, 'r')] followed by [json.load]; [None] where either fails. *)
Definition load_file (path : string) : M content (option json) :=
  λ w, (files w !! path ≫= json_load E,
        Build_world (files w) (trace w ++ [FsRead path])).

(** The traversal guard of the report routes. *)
Definition unsafe_filename (filename : string) : bool :=
  negb (Py.endswith filename ".json")
  || Py.contains_char "/" filename || Py.contains_char "\" filename.

Definition api_get_report (filename : string) : M content response :=
  if unsafe_filename filename then mret (failure 400 "اسم ملف غير صحيح")
  else
    let reports_dir := REPORTS_DIRECTORY in
    let filepath := Py.path_join reports_dir filename in
    present ← path_exists filepath;
    if present : bool then
      loaded ← load_file filepath;
      mret (match loaded with
            | Some report_data =>
                Response 200 (JDict [ ("success", JBool true);
                                      ("report", report_data) ])
            | None => failure 500 "خطأ في جلب التقرير"
            end)
    else mret (failure 404 "التقرير غير موجود").

End App.


(** ** [app.py]: the search, username and download routes *)

Section Routes.

Context {content : Type} (E : platform content).
Variable eighth_dangerous_char : ascii.

(** [comprehensive_search(target, target_type)] for a [target_type] that is
    not a string: it equals none of "auto", "email" and "username", so no
    source is searched and the report of an empty outcome map is built and
    saved. *)
Definition search_no_sources (target : string) (target_type : json)
  : M content json :=
  match generate_report E target [] with
  | Raise e => mret (search_error E e)
  | Ok report =>
      saved ← save_report E reporter report None;
      mret (match saved with
            | Raise e => search_error E e
            | Ok report_path =>
                JDict [ ("target", JStr target);
                        ("target_type", target_type);
                        ("results", JDict []);
                        ("report", report);
                        ("report_saved_to", JStr report_path);
                        ("timestamp", JStr (now_isoformat E)) ]
            end)
  end.

Definition search_failed : response :=
  failure 500 "خطأ غير متوقع في البحث".

(** [data] is the parsed request body. *)
Definition api_search (data : json) : M content response :=
  let target_required := failure 400 "الهدف مطلوب" in
  if negb (PyVal.truthy data) then mret target_required
  else
    match PyVal.contains "target" data with
    | None => mret search_failed
    | Some false => mret target_required
    | Some true =>
        match getitem "target" data with
        | Ok (JStr raw) =>
            let target := Py.strip raw in
            match get_method "type" (JStr "auto") data with
            | Raise _ => mret search_failed
            | Ok target_type =>
                if String.eqb target "" then
                  mret (failure 400 "الهدف لا يمكن أن يكون فارغاً")
                else if (100 <? String.length target)%nat then
                  mret (failure 400 "الهدف طويل جداً")
                else
                  results ←
                    match target_type with
                    | JStr t =>
                        comprehensive_search E eighth_dangerous_char target t
                    | _ => search_no_sources target target_type
                    end;
                  mret (match PyVal.contains "error" results,
                              getitem "error" results with
                        | Some true, Ok message =>
                            Response 400 (JDict [ ("success", JBool false);
                                                  ("error", message) ])
                        | Some false, _ =>
                            Response 200 (JDict [ ("success", JBool true);
                                                  ("data", results) ])
                        | _, _ => search_failed
                        end)
            end
        | _ => mret search_failed
        end
    end.

Definition username_search_failed : response :=
  failure 500 "خطأ في البحث عن اسم المستخدم".

Definition api_username_search (data : json) : M content response :=
  let username_required := failure 400 "اسم المستخدم مطلوب" in
  if negb (PyVal.truthy data) then mret username_required
  else
    match PyVal.contains "username" data with
    | None => mret username_search_failed
    | Some false => mret username_required
    | Some true =>
        match getitem "username" data with
        | Ok (JStr raw) =>
            let username := Py.strip raw in
            match get_method "sources" (JList [JStr "sherlock"]) data with
            | Raise _ => mret username_search_failed
            | Ok sources =>
                if negb (validate_username username) then
                  mret (failure 400 "اسم مستخدم غير صحيح")
                else
                  match iterate sources with
                  | Raise _ => mret username_search_failed
                  | Ok names =>
                      r ← check_sources E eighth_dangerous_char names username [];
                      mret (match rbind r serialise with
                            | Raise _ => username_search_failed
                            | Ok results =>
                                Response 200
                                  (JDict [ ("success", JBool true);
                                           ("username", JStr username);
                                           ("results", JDict results);
                                           ("timestamp", JStr (now_isoformat E)) ])
                            end)
                  end
            end
        | _ => mret username_search_failed
        end
    end.

(** What the download route answers: a JSON response, or the call
    [send_file(path, as_attachment=True, download_name=..., mimetype=...)]. *)
Inductive download : Type :=
| Answer (r : response)
| SendFile (path download_name mimetype : string).

(** The route raises [BadRequest] on an unsafe name like [api_get_report],
    but has no handler for it: the only [except] clause is the general one. *)
Definition api_download_report (filename : string) : M content download :=
  if unsafe_filename filename then
    mret (Answer (failure 500 "خطأ في تحميل التقرير"))
  else
    let reports_dir := REPORTS_DIRECTORY E in
    let filepath := Py.path_join reports_dir filename in
    present ← path_exists filepath;
    if present : bool then mret (SendFile filepath filename "application/json")
    else mret (Answer (failure 404 "التقرير غير موجود")).

(** [async_osint_search]: every task only calls a synchronous method, so
    the tasks run one after the other in the order they were created, before
    the first [await] returns; what is left is the loop of the email check,
    over the names that are attributes. *)
Definition async_osint_search (target : string) (sources : option (list string))
  : M content (result (list (string * pyobj))) :=
  let sources :=
    match sources with
    | Some names => names
    | None => ["haveibeenpwned"; "hunterio"; "emailrep"; "leakcheck"]
    end in
  check_sources E eighth_dangerous_char (JStr <$> sources) target [].

End Routes.

(** ** [app.py]: listing the report directory *)

(** What [os.stat] tells about one entry, the two times already through
    [datetime.fromtimestamp(...).isoformat()]. *)
Record file_stat : Type := {
  st_size : Z;
  created : string;
  modified : string
}.

(** The view the listing routes have of the outside: directories and their
    entries, and the two rate limits [Config] parsed at import. *)
Record directory_view : Type := {
  dir_exists : string → bool;                (* [os.path.exists] *)
  listdir : string → result (list string);   (* [os.listdir] *)
  stat : string → result file_stat;          (* [os.stat], [os.path.getsize] *)
  RATELIMIT_PER_MINUTE : Z;
  RATELIMIT_PER_HOUR : Z
}.

Section Listing.

Context {content : Type} (E : platform content) (D : directory_view).

Record handle : Type := {
  handle_filename : string;
  handle_stat : file_stat
}.

(** [reports.append({...})] for every entry whose name ends in [.json]; the
    first [os.stat] that raises ends the route. *)
Fixpoint collect (reports_dir : string) (names : list string)
  : result (list handle) :=
  match names with
  | [] => Ok []
  | filename :: rest =>
      if Py.endswith filename ".json" then
        rbind (stat D (Py.path_join reports_dir filename)) (λ st,
        rbind (collect reports_dir rest) (λ reports,
        Ok ({| handle_filename := filename; handle_stat := st |} :: reports)))
      else collect reports_dir rest
  end.

(** [reports.sort(key=lambda x: x['created'], reverse=True)]: a stable sort,
    so among equal keys the order of the list is kept.  [insert_newest]
    puts a handle in front of the first one that is not newer. *)
Fixpoint insert_newest (h : handle) (sorted : list handle) : list handle :=
  match sorted with
  | [] => [h]
  | h' :: rest =>
      if String.leb (created (handle_stat h')) (created (handle_stat h))
      then h :: h' :: rest
      else h' :: insert_newest h rest
  end.

Definition sort_newest_first (reports : list handle) : list handle :=
  foldr insert_newest [] reports.

Definition handle_json (h : handle) : json :=
  JDict [ ("filename", JStr (handle_filename h));
          ("size", JNum (st_size (handle_stat h)));
          ("created", JStr (created (handle_stat h)));
          ("modified", JStr (modified (handle_stat h))) ].

Definition api_list_reports : response :=
  let reports_dir := REPORTS_DIRECTORY E in
  if negb (dir_exists D reports_dir) then
    Response 200 (JDict [("reports", JList [])])
  else
    match rbind (listdir D reports_dir) (collect reports_dir) with
    | Raise _ => failure 500 "خطأ في جلب قائمة التقارير"
    | Ok reports =>
        let reports := sort_newest_first reports in
        Response 200 (JDict [ ("success", JBool true);
                              ("reports", JList (handle_json <$> reports));
                              ("total", JNum (Z.of_nat (length reports))) ])
    end.

(** The loop of [api_system_info]: count and total size of the [.json]
    entries. *)
Fixpoint count_and_size (reports_dir : string) (names : list string)
    (reports_count total_size : Z) : result (Z * Z) :=
  match names with
  | [] => Ok (reports_count, total_size)
  | filename :: rest =>
      if Py.endswith filename ".json" then
        rbind (stat D (Py.path_join reports_dir filename)) (λ st,
        count_and_size reports_dir rest (reports_count + 1) (total_size + st_size st))
      else count_and_size reports_dir rest reports_count total_size
  end.

Definition api_system_info : response :=
  let reports_dir := REPORTS_DIRECTORY E in
  match (if dir_exists D reports_dir
         then rbind (listdir D reports_dir)
                (λ names, count_and_size reports_dir names 0 0)
         else Ok (0, 0)%Z) with
  | Raise _ => failure 500 "خطأ في جلب معلومات النظام"
  | Ok (reports_count, total_size) =>
      Response 200
        (JDict [ ("success", JBool true);
                 ("system",
                  JDict [ ("version", JStr "2.0");
                          ("uptime", JStr "N/A");
                          ("reports_count", JNum reports_count);
                          ("reports_total_size", JNum total_size);
                          ("supported_sources",
                           JList [ JStr "HaveIBeenPwned"; JStr "Hunter.io";
                                   JStr "LeakCheck"; JStr "EmailRep";
                                   JStr "Clearbit"; JStr "SocialScan";
                                   JStr "Holehe"; JStr "Sherlock";
                                   JStr "Maigret" ]);
                          ("rate_limits",
                           JDict [ ("per_minute", JNum (RATELIMIT_PER_MINUTE D));
                                   ("per_hour", JNum (RATELIMIT_PER_HOUR D)) ]) ]) ])
  end.

End Listing.

(** ** Computations that only add to the trace *)

(** [appends c a events]: in every world, [c] returns [a], leaves the files
    alone and adds [events] to the trace. *)
Definition appends {content A : Type} (c : M content A) (a : A)
    (events : list event) : Prop :=
  ∀ w, c w = (a, Build_world (files w) (trace w ++ events)).

(** A request sent or a process started. *)
Definition is_call (e : event) : bool :=
  match e with
  | HttpGet _ _ _ _ | Spawn _ _ => true
  | _ => false
  end.

Definition is_sleep (e : event) : bool :=
  match e with
  | Sleep _ => true
  | _ => false
  end.

(** The outcome of a source on a target; it does not depend on the world
    (see [invoke_appends]). *)
Definition outcome_of {content : Type} (E : platform content) (c8 : ascii)
    (s : source) (target : string) : json :=
  (invoke E c8 s target (Build_world ∅ [])).1.

(** A request sent. *)
Definition is_request (e : event) : bool :=
  match e with
  | HttpGet _ _ _ _ => true
  | _ => false
  end.

(** A process started. *)
Definition is_spawn (e : event) : bool :=
  match e with
  | Spawn _ _ => true
  | _ => false
  end.

(** What a source adds to the trace on a target; like its outcome it does
    not depend on the world (see [invoke_events]). *)
Definition events_of {content : Type} (E : platform content) (c8 : ascii)
    (s : source) (target : string) : list event :=
  trace (invoke E c8 s target (Build_world ∅ [])).2.

(** ** A concrete platform, to run the model on *)

Module Demo.

Definition breach (name date : string) : json :=
  JDict [("Name", JStr name); ("BreachDate", JStr date)].

Definition four_breaches : json :=
  JList [ breach "Adobe" "2013-10-04"; breach "LinkedIn" "2012-05-05";
          breach "Dropbox" "2012-07-01"; breach "Canva" "2019-05-24" ].

(** The breach service answers 200 with four breaches; every other service
    answers 404 with a body that is not JSON. *)
Definition answer (url : string) (headers params : list (string * string))
  : result http_response :=
  if String.prefix "https://haveibeenpwned.com/" url then
    Ok {| status_code := 200; text := ""; json_body := Ok four_breaches |}
  else
    Ok {| status_code := 404; text := "Not Found";
          json_body := Raise (OtherException "JSONDecodeError") |}.

(** Every tool is installed and exits with status 0. *)
Definition execute (cmd : argv) : result completed_process :=
  Ok {| returncode := 0; stdout := "done"; stderr := "" |}.

(** Files hold the document itself; API keys are set, the report directory
    is not; an address is accepted when it has an at sign. *)
Definition host : platform json :=
  {| validators_email := Py.contains_char "@";
     environ_get := λ name,
       if String.eqb name "REPORTS_DIRECTORY" then None else Some "secret";
     session_get := answer;
     subprocess_run := execute;
     writable := λ _, true;
     json_dump := λ d, d;
     json_load := Some;
     now_isoformat := "2024-05-01T12:00:00";
     now_stamp := "20240501_120000";
     str_exn := λ e,
       match e with
       | TypeError => "TypeError"
       | OtherException name => name
       | _ => "error"
       end;
     py_str := λ _, "";
     last_breach_name := λ _, Ok (JStr "Canva") |}.

Definition start : world json := Build_world ∅ [].

Definition sample_report : json :=
  JDict [ ("target", JStr "user@example.com"); ("detailed_results", JDict []) ].

Definition sample_results : Dict.t :=
  [ ("haveibeenpwned", JDict [("error", JStr "انتهت مهلة الاتصال")]);
    ("hunterio", JDict [("status", JStr "valid"); ("score", JNum 90)]);
    ("leakcheck", JDict [("success", JBool true); ("found", JNum 0)]) ].

End Demo.

(** Two more platforms and a report directory. *)

Module Quiet.

(** Every service answers 404, the keys are set, no tool is installed and
    nothing can be written. *)
Definition host : platform json :=
  {| validators_email := Py.contains_char "@";
     environ_get := λ name,
       if String.eqb name "REPORTS_DIRECTORY" then None else Some "secret";
     session_get := λ _ _ _,
       Ok {| status_code := 404; text := "Not Found";
             json_body := Raise (OtherException "JSONDecodeError") |};
     subprocess_run := λ _, Raise FileNotFoundError;
     writable := λ _, false;
     json_dump := λ d, d;
     json_load := Some;
     now_isoformat := "2024-05-01T12:00:00";
     now_stamp := "20240501_120000";
     str_exn := λ _, "error";
     py_str := λ _, "";
     last_breach_name := λ _, Raise KeyError |}.

(** No key is set. *)
Definition keyless : platform json :=
  {| validators_email := Py.contains_char "@";
     environ_get := λ _, None;
     session_get := session_get host;
     subprocess_run := subprocess_run host;
     writable := λ _, true;
     json_dump := λ d, d;
     json_load := Some;
     now_isoformat := "2024-05-01T12:00:00";
     now_stamp := "20240501_120000";
     str_exn := λ _, "error";
     py_str := λ _, "";
     last_breach_name := λ _, Raise KeyError |}.

(** The leak-check service answers 200 with the JSON value null. *)
Definition null_leak : platform json :=
  {| validators_email := Py.contains_char "@";
     environ_get := environ_get host;
     session_get := λ url _ _,
       if String.prefix "https://leakcheck.io/" url then
         Ok {| status_code := 200; text := "null"; json_body := Ok JNull |}
       else
         Ok {| status_code := 404; text := "Not Found";
               json_body := Raise (OtherException "JSONDecodeError") |};
     subprocess_run := subprocess_run Demo.host;
     writable := λ _, true;
     json_dump := λ d, d;
     json_load := Some;
     now_isoformat := "2024-05-01T12:00:00";
     now_stamp := "20240501_120000";
     str_exn := λ _, "error";
     py_str := λ _, "";
     last_breach_name := λ _, Raise KeyError |}.

End Quiet.

(** The platform of [Demo] with [REPORTS_DIRECTORY] set in the environment,
    and two reports whose target holds a separator. *)
Module Relocated.

Definition host : platform json :=
  {| validators_email := validators_email Demo.host;
     environ_get := λ name,
       if String.eqb name "REPORTS_DIRECTORY" then Some "/srv/reports"
       else Some "secret";
     session_get := session_get Demo.host;
     subprocess_run := subprocess_run Demo.host;
     writable := writable Demo.host;
     json_dump := json_dump Demo.host;
     json_load := json_load Demo.host;
     now_isoformat := now_isoformat Demo.host;
     now_stamp := now_stamp Demo.host;
     str_exn := str_exn Demo.host;
     py_str := py_str Demo.host;
     last_breach_name := last_breach_name Demo.host |}.

Definition slash_report : json :=
  JDict [ ("target", JStr "a/b@example.com"); ("detailed_results", JDict []) ].

Definition backslash_report : json :=
  JDict [ ("target", JStr "a\b@example.com"); ("detailed_results", JDict []) ].

End Relocated.

Module Shelf.

Definition stats (size : Z) (time : string) : result file_stat :=
  Ok {| st_size := size; created := time; modified := time |}.

(** A report directory with three reports and a note. *)
Definition view : directory_view :=
  {| dir_exists := λ dir, String.eqb dir "./reports";
     listdir := λ _, Ok ["a.json"; "notes.txt"; "b.json"; "c.json"];
     stat := λ path,
       if String.eqb path "./reports/a.json" then stats 120 "2024-05-01T10:00:00"
       else if String.eqb path "./reports/b.json" then stats 300 "2024-05-03T09:30:00"
       else if String.eqb path "./reports/c.json" then stats 80 "2024-05-02T18:45:00"
       else Raise FileNotFoundError;
     RATELIMIT_PER_MINUTE := 30;
     RATELIMIT_PER_HOUR := 500 |}.

End Shelf.

(** * Properties *)

(** ** Python strings *)

Section StringFacts.

Implicit Types (s : string) (c : ascii).

Lemma lstrip_idempotent s : Py.lstrip (Py.lstrip s) = Py.lstrip s.
Proof.
  induction s as [|c s IH]; simpl; [done|].
  destruct (Py.isspace c) eqn:Hc; [done|]. simpl. by rewrite Hc.
Qed.

Lemma rstrip_cons c s :
  Py.rstrip (String c s) =
  match Py.rstrip s with
  | EmptyString => if Py.isspace c then EmptyString else String c EmptyString
  | r => String c r
  end.
Proof. reflexivity. Qed.

Lemma rstrip_idempotent s : Py.rstrip (Py.rstrip s) = Py.rstrip s.
Proof.
  induction s as [|c s IH]; [done|].
  rewrite rstrip_cons.
  destruct (Py.rstrip s) as [|d r] eqn:Hr.
  - destruct (Py.isspace c) eqn:Hc; [done|]. simpl. by rewrite Hc.
  - by rewrite rstrip_cons, IH.
Qed.

(** Cutting leading whitespace leaves the end of the string as it was. *)
Lemma rstrip_lstrip_fixed s :
  Py.rstrip s = s → Py.rstrip (Py.lstrip s) = Py.lstrip s.
Proof.
  induction s as [|c s IH]; [done|].
  intros H. simpl. destruct (Py.isspace c) eqn:Hc; [|done].
  apply IH. rewrite rstrip_cons in H.
  destruct (Py.rstrip s) as [|d r] eqn:Hr.
  - rewrite Hc in H. discriminate.
  - by injection H.
Qed.

Lemma strip_idempotent s : Py.strip (Py.strip s) = Py.strip s.
Proof.
  unfold Py.strip.
  rewrite (rstrip_lstrip_fixed (Py.rstrip s)) by apply rstrip_idempotent.
  apply lstrip_idempotent.
Qed.

Lemma lstrip_first s c :
  Py.first_char (Py.lstrip s) = Some c → Py.isspace c = false.
Proof.
  induction s as [|a s IH]; simpl; [done|].
  destruct (Py.isspace a) eqn:Ha; [done|].
  simpl. by intros [= <-].
Qed.

Lemma last_char_cons a s :
  Py.last_char (String a s) =
  match s with EmptyString => Some a | _ => Py.last_char s end.
Proof. by destruct s. Qed.

Lemma rstrip_last s c :
  Py.last_char (Py.rstrip s) = Some c → Py.isspace c = false.
Proof.
  induction s as [|a s IH]; [done|].
  rewrite rstrip_cons.
  destruct (Py.rstrip s) as [|d r] eqn:Hr.
  - destruct (Py.isspace a) eqn:Ha; [done|]. simpl. by intros [= <-].
  - rewrite last_char_cons. done.
Qed.

Lemma lstrip_last s c :
  Py.last_char (Py.lstrip s) = Some c → Py.last_char s = Some c.
Proof.
  induction s as [|a s IH]; [done|].
  simpl Py.lstrip. destruct (Py.isspace a); [|done].
  intros H. rewrite last_char_cons.
  destruct s; [done|]. by apply IH.
Qed.

Lemma strip_first s c :
  Py.first_char (Py.strip s) = Some c → Py.isspace c = false.
Proof. apply lstrip_first. Qed.

Lemma strip_last s c :
  Py.last_char (Py.strip s) = Some c → Py.isspace c = false.
Proof. intros H. by apply (rstrip_last s), lstrip_last. Qed.

Lemma contains_lstrip c s :
  Py.contains_char c s = false → Py.contains_char c (Py.lstrip s) = false.
Proof.
  induction s as [|a s IH]; [done|].
  simpl Py.lstrip. destruct (Py.isspace a); [|done].
  simpl. intros [_ H]%orb_false_elim. by apply IH.
Qed.

Lemma contains_rstrip c s :
  Py.contains_char c s = false → Py.contains_char c (Py.rstrip s) = false.
Proof.
  induction s as [|a s IH]; [done|].
  intros H. simpl in H. apply orb_false_elim in H as [Ha H].
  rewrite rstrip_cons. specialize (IH H).
  destruct (Py.rstrip s) as [|d r].
  - destruct (Py.isspace a); [done|]. simpl. by rewrite Ha.
  - simpl in *. by rewrite Ha, IH.
Qed.

Lemma contains_strip c s :
  Py.contains_char c s = false → Py.contains_char c (Py.strip s) = false.
Proof. intros H. by apply contains_lstrip, contains_rstrip. Qed.

Lemma contains_remove_same c s :
  Py.contains_char c (Py.remove_char c s) = false.
Proof.
  induction s as [|a s IH]; [done|].
  simpl. destruct (Ascii.eqb a c) eqn:Ha; [done|]. simpl. by rewrite Ha.
Qed.

Lemma contains_remove_other c d s :
  Py.contains_char c s = false → Py.contains_char c (Py.remove_char d s) = false.
Proof.
  induction s as [|a s IH]; [done|].
  simpl. intros [Ha H]%orb_false_elim.
  destruct (Ascii.eqb a d); [by apply IH|]. simpl. by rewrite Ha, IH.
Qed.

Lemma remove_absent c s :
  Py.contains_char c s = false → Py.remove_char c s = s.
Proof.
  induction s as [|a s IH]; [done|].
  simpl. intros [Ha H]%orb_false_elim. by rewrite Ha, IH.
Qed.

End StringFacts.

(** ** The validator *)

Section ValidatorFacts.

Implicit Types (s t : string) (c : ascii) (denylist : list ascii).

Lemma scrub_keeps_absent denylist c s :
  Py.contains_char c s = false →
  Py.contains_char c
    (fold_left (λ sanitized char, Py.remove_char char sanitized) denylist s) = false.
Proof.
  revert s. induction denylist as [|d denylist IH]; intros s H; simpl; [done|].
  by apply IH, contains_remove_other.
Qed.

Lemma scrub_clean denylist c s :
  c ∈ denylist →
  Py.contains_char c
    (fold_left (λ sanitized char, Py.remove_char char sanitized) denylist s) = false.
Proof.
  revert s. induction denylist as [|d denylist IH]; intros s Hc; simpl.
  - by apply elem_of_nil in Hc.
  - apply elem_of_cons in Hc as [->|Hc]; [|by apply IH].
    apply scrub_keeps_absent, contains_remove_same.
Qed.

Lemma scrub_fixed denylist s :
  (∀ c, c ∈ denylist → Py.contains_char c s = false) →
  fold_left (λ sanitized char, Py.remove_char char sanitized) denylist s = s.
Proof.
  revert s. induction denylist as [|d denylist IH]; intros s H; simpl; [done|].
  rewrite remove_absent by (apply H; left).
  apply IH. intros c Hc. apply H. by right.
Qed.

Lemma sanitize_input_clean (c8 : ascii) c s :
  c ∈ dangerous_chars c8 → Py.contains_char c (sanitize_input c8 s) = false.
Proof.
  intros Hc. unfold sanitize_input.
  destruct (String.eqb s ""); [done|].
  by apply contains_strip, scrub_clean.
Qed.

Lemma sanitize_input_fixed (c8 : ascii) s :
  (∀ c, c ∈ dangerous_chars c8 → Py.contains_char c s = false) →
  Py.strip s = s →
  sanitize_input c8 s = s.
Proof.
  intros Hclean Hstrip. unfold sanitize_input.
  destruct (String.eqb_spec s "") as [->|_]; [done|].
  by rewrite scrub_fixed.
Qed.

Lemma match_username_pattern_spec s :
  match_username_pattern s = true ↔
  ∃ t, t ≠ "" ∧ Py.all_chars username_char t = true
       ∧ (s = t ∨ s = t +:+ String Py.LF "").
Proof.
  induction s as [|c s IH]; simpl.
  - split; [done|]. intros (t & Ht & _ & [H|H]); [by subst|].
    destruct t; [done|discriminate].
  - rewrite andb_true_iff, orb_true_iff, IH. split.
    + intros [Hc [(t & Ht & Hall & Hs)|Hend]].
      * exists (String c t). split; [done|]. split; [simpl; by rewrite Hc|].
        destruct Hs as [->| ->]; [by left|by right].
      * exists (String c ""). split; [done|]. split; [simpl; by rewrite Hc|].
        destruct s as [|d [|? ?]]; [by left| |done].
        simpl in Hend. apply Ascii.eqb_eq in Hend as ->. by right.
    + intros ([|a t] & Ht & Hall & Hs); [done|].
      simpl in Hall. apply andb_true_iff in Hall as [Ha Hall].
      assert (a = c ∧ (s = t ∨ s = t +:+ String Py.LF "")) as [-> Hs'].
      { destruct Hs as [[= -> ->]|[= -> ->]]; auto. }
      split; [done|].
      destruct t as [|b t].
      * right. by destruct Hs' as [->| ->].
      * left. exists (String b t). done.
Qed.

(** What [validate_username] accepts: at least three characters, all of the
    class, except that the last one may be a line feed. *)
Lemma validate_username_spec s :
  validate_username s = true ↔
  (3 ≤ String.length s)%nat
  ∧ ∃ t, t ≠ "" ∧ Py.all_chars username_char t = true
         ∧ (s = t ∨ s = t +:+ String Py.LF "").
Proof.
  unfold validate_username. rewrite <- match_username_pattern_spec.
  destruct (String.eqb_spec s "") as [->|Hs]; simpl.
  - split; [done|]. intros [Hlen _]. simpl in Hlen. lia.
  - destruct (Nat.ltb_spec (String.length s) 3) as [Hlt|Hge].
    + split; [done|]. intros [Hlen _]. lia.
    + split; [by intros Hm; split|]. by intros [_ Hm].
Qed.

End ValidatorFacts.

(** C10.  [sanitize_input] is idempotent: its output holds none of the
    characters of [dangerous_chars] -- whichever the eighth one is, the line
    feed included -- and neither starts nor ends with whitespace, so a second
    pass removes nothing. *)
Theorem sanitize_input_idempotent (c8 : ascii) (s : string) :
  sanitize_input c8 (sanitize_input c8 s) = sanitize_input c8 s
  ∧ forallb (λ c, negb (Py.contains_char c (sanitize_input c8 s)))
            (dangerous_chars c8) = true
  ∧ match Py.first_char (sanitize_input c8 s) with
    | Some c => Py.isspace c = false
    | None => True
    end
  ∧ match Py.last_char (sanitize_input c8 s) with
    | Some c => Py.isspace c = false
    | None => True
    end.
Proof.
  split; [|split; [|split]].
  - apply sanitize_input_fixed.
    + intros c Hc. by apply sanitize_input_clean.
    + unfold sanitize_input. destruct (String.eqb s ""); [done|].
      apply strip_idempotent.
  - apply forallb_forall. intros c Hc%list_elem_of_In.
    by rewrite sanitize_input_clean.
  - destruct (Py.first_char _) as [c|] eqn:Hc; [|done].
    unfold sanitize_input in Hc. destruct (String.eqb s ""); [done|].
    by apply strip_first in Hc.
  - destruct (Py.last_char _) as [c|] eqn:Hc; [|done].
    unfold sanitize_input in Hc. destruct (String.eqb s ""); [done|].
    by apply strip_last in Hc.
Qed.

(** C7.  [validate_username] accepts a string that ends in a line feed after
    characters of the class: the end anchor of the pattern also matches just
    before a final line feed.  So it returns true on strings holding a
    character outside the class, and on one with only two characters of the
    class. *)
Theorem validate_username_accepts_final_line_feed :
  validate_username ("abc" +:+ String Py.LF "") = true
  ∧ Py.all_chars username_char ("abc" +:+ String Py.LF "") = false
  ∧ validate_username ("ab" +:+ String Py.LF "") = true.
Proof. repeat split; reflexivity. Qed.

(** ** The report builder *)

Section ReporterFacts.

Context {content : Type} (E : platform content).

Lemma dict_get_set {V : Type} (k : string) (v : V) (d : list (string * V)) :
  Dict.get k (Dict.set k v d) = Some v.
Proof.
  induction d as [|[k' v'] d IH]; simpl.
  - by rewrite String.eqb_refl.
  - destruct (String.eqb k' k) eqn:Hk; simpl; by rewrite Hk.
Qed.

(** The summary stays at its defaults whenever the breach-check outcome is a
    dict. *)
Lemma summary_of_dict (results outcome : Dict.t) :
  Dict.get "haveibeenpwned" results = Some (JDict outcome) →
  _generate_summary results
  = JDict [ ("risk_level", JStr "low"); ("breaches_found", JBool false);
            ("social_accounts", JNum 0); ("email_reputation", JStr "unknown") ].
Proof. intros H. unfold _generate_summary. rewrite H. simpl. by destruct outcome. Qed.

(** Every path through the breach-check adapter returns a dict. *)
Lemma haveibeenpwned_returns_dict (email : string) (w : world content) :
  ∃ outcome, (haveibeenpwned E email w).1 = JDict outcome.
Proof.
  unfold haveibeenpwned.
  destruct (validate_email E email); simpl; [|by eexists].
  destruct (api_key E "HIBP_API_KEY"); [|by eexists].
  run_m.
  destruct (session_get E _ _ _) as [resp|e]; simpl.
  2:{ destruct e; by eexists. }
  destruct (status_code resp =? 200)%Z.
  - destruct (json_body resp) as [breaches|e]; simpl; [|destruct e; by eexists].
    destruct (PyVal.len breaches); simpl; [|by eexists].
    destruct (PyVal.truthy breaches); simpl; [|by eexists].
    destruct (last_breach_name E breaches) as [?|e]; simpl; [by eexists|].
    destruct e; by eexists.
  - destruct (status_code resp =? 404)%Z; by eexists.
Qed.

(** X16.  So no search ever reports a breach: whatever the adapter returned,
    on any platform and for any address, the summary built from a map that
    holds it is the default one. *)
Lemma summary_low_on_adapter_outcome (email : string) (w : world content)
    (results : Dict.t) :
  _generate_summary (Dict.set "haveibeenpwned" (haveibeenpwned E email w).1 results)
  = JDict [ ("risk_level", JStr "low"); ("breaches_found", JBool false);
            ("social_accounts", JNum 0); ("email_reputation", JStr "unknown") ].
Proof.
  destruct (haveibeenpwned_returns_dict email w) as [outcome Hd].
  apply (summary_of_dict _ outcome). rewrite Hd. apply dict_get_set.
Qed.

(** X15.  A list under the breach-check key is what the heuristic reacts
    to: the risk level is high for more than three entries, medium for one to
    three, low for none, and a breach is reported exactly when the list is
    not empty. *)
Lemma summary_of_list (results : Dict.t) (breaches : list json) :
  Dict.get "haveibeenpwned" results = Some (JList breaches) →
  _generate_summary results
  = JDict [ ("risk_level",
             JStr (if (3 <? length breaches)%nat then "high"
                   else if (0 <? length breaches)%nat then "medium" else "low"));
            ("breaches_found", JBool (0 <? length breaches)%nat);
            ("social_accounts", JNum 0); ("email_reputation", JStr "unknown") ].
Proof.
  intros H. unfold _generate_summary. rewrite H.
  destruct breaches as [|b1 [|b2 [|b3 [|b4 rest]]]]; reflexivity.
Qed.

Lemma count_where_total (p : json → option bool) (values : list json) :
  Forall (λ r, is_Some (p r)) values →
  count_where p values
  = Ok (Z.of_nat (length (filter (λ r, p r = Some true) values))).
Proof.
  induction 1 as [|r values [b Hb] _ IH]; [done|].
  simpl. rewrite Hb, IH. simpl.
  rewrite filter_cons. destruct b; case_decide; try congruence; simpl length;
    try done; f_equal; lia.
Qed.

Lemma filter_split_length (p : json → option bool) (values : list json) :
  Forall (λ r, is_Some (p r)) values →
  (length (filter (λ r, p r = Some false) values)
   + length (filter (λ r, p r = Some true) values) = length values)%nat.
Proof.
  induction 1 as [|r values [b Hb] _ IH]; [done|].
  rewrite !filter_cons. destruct b; repeat case_decide; try congruence; simpl; lia.
Qed.

End ReporterFacts.

(** A whole search on an address with four breaches: the report's summary
    is the default one. *)
Lemma search_summary_stays_low (c8 : ascii) :
  rbind (getitem "report"
           (comprehensive_search Demo.host c8 "user@example.com" "auto"
              Demo.start).1)
        (getitem "summary")
  = Ok (JDict [ ("risk_level", JStr "low"); ("breaches_found", JBool false);
                ("social_accounts", JNum 0);
                ("email_reputation", JStr "unknown") ]).
Proof. vm_compute. reflexivity. Qed.

(** C1.  The breach-check adapter answers a 200 response that lists four
    breaches with a dict (status found, breach_count 4), and the summary
    built from an outcome map holding that outcome still reads risk level
    low and no breach found: [_generate_summary] reacts only to a value that
    is itself a list, which the adapter never returns. *)
Theorem summary_misses_adapter_breaches :
  (haveibeenpwned Demo.host "user@example.com" Demo.start).1
  = JDict [ ("status", JStr "found"); ("breach_count", JNum 4);
            ("breaches", Demo.four_breaches); ("last_breach", JStr "Canva") ]
  ∧ _generate_summary
      [("haveibeenpwned", (haveibeenpwned Demo.host "user@example.com" Demo.start).1)]
    = JDict [ ("risk_level", JStr "low"); ("breaches_found", JBool false);
              ("social_accounts", JNum 0); ("email_reputation", JStr "unknown") ].
Proof. split; reflexivity. Qed.

(** C9.  For an outcome map whose outcomes all support the test
    ['error' in r] (dicts, as the adapters return, and also lists and
    strings), [generate_report] returns a report whose metadata counts
    partition the sources: successful + failed = total = number of entries,
    failed counting the outcomes that hold the key [error] and successful
    the others. *)
Theorem generate_report_counts_partition {content : Type} (E : platform content)
    (target : string) (results : Dict.t) :
  Forall (λ r, is_Some (PyVal.contains "error" r)) (Dict.values results) →
  ∃ summary successful failed,
    generate_report E target results
    = Ok (JDict [ ("target", JStr target);
                  ("timestamp", JStr (now_isoformat E));
                  ("summary", summary);
                  ("detailed_results", JDict results);
                  ("metadata",
                   JDict [ ("total_sources", JNum (Z.of_nat (length results)));
                           ("successful_sources", JNum successful);
                           ("failed_sources", JNum failed) ]) ])
    ∧ (successful + failed = Z.of_nat (length results))%Z
    ∧ failed
      = Z.of_nat (length (filter (λ r, PyVal.contains "error" r = Some true)
                                 (Dict.values results)))
    ∧ successful
      = Z.of_nat (length (filter (λ r, PyVal.contains "error" r = Some false)
                                 (Dict.values results))).
Proof.
  intros Hall.
  eexists _, _, _. unfold generate_report.
  rewrite (count_where_total (λ r, negb <$> PyVal.contains "error" r)).
  2:{ eapply Forall_impl; [exact Hall|]. intros r [b ->]. by eexists. }
  rewrite (count_where_total _ _ Hall). simpl.
  split; [reflexivity|].
  assert (filter (λ r, negb <$> PyVal.contains "error" r = Some true)
                 (Dict.values results)
          = filter (λ r, PyVal.contains "error" r = Some false)
                   (Dict.values results)) as ->.
  { apply list_filter_iff. intros r.
    destruct (PyVal.contains "error" r) as [[]|]; simpl; naive_solver. }
  split; [|done].
  pose proof (filter_split_length _ _ Hall) as Hsplit.
  unfold Dict.values in *. rewrite length_map in Hsplit. lia.
Qed.

Lemma generate_report_counts_partition_witness :
  ∃ summary successful failed,
    generate_report Demo.host "user@example.com" Demo.sample_results
    = Ok (JDict [ ("target", JStr "user@example.com");
                  ("timestamp", JStr "2024-05-01T12:00:00");
                  ("summary", summary);
                  ("detailed_results", JDict Demo.sample_results);
                  ("metadata",
                   JDict [ ("total_sources", JNum 3);
                           ("successful_sources", JNum successful);
                           ("failed_sources", JNum failed) ]) ])
    ∧ (successful + failed = 3)%Z
    ∧ failed = 1%Z
    ∧ successful = 2%Z.
Proof.
  apply (generate_report_counts_partition Demo.host "user@example.com"
           Demo.sample_results).
  repeat constructor; simpl; eexists; reflexivity.
Defined.

(** ** The source adapters *)

Section AdapterFacts.

Context {content : Type} (E : platform content).

(** X14.  The three HTTP adapters that have a branch for status 404 (breach
    check, reputation, enrichment) answer it with an outcome that holds no
    [error] key: clean for the breach check, not found for the two others. *)
Lemma handled_404_is_success (email key : string) (resp : http_response)
    (w : world content) :
  validate_email E email = true →
  status_code resp = 404%Z →
  (api_key E "HIBP_API_KEY" = Some key →
   session_get E ("https://haveibeenpwned.com/api/v3/breachedaccount/" +:+ email
                  +:+ "?truncateResponse=false")
     [("hibp-api-key", key); ("User-Agent", "OSINT-Toolkit/2.0")] [] = Ok resp →
   (haveibeenpwned E email w).1
   = JDict [ ("status", JStr "clean"); ("breach_count", JNum 0);
             ("message", JStr "لم يتم العثور على تسريبات") ])
  ∧ (session_get E ("https://emailrep.io/" +:+ email) [] [] = Ok resp →
     (emailrep E email w).1 = not_found)
  ∧ (api_key E "CLEARBIT_API_KEY" = Some key →
     session_get E ("https://person.clearbit.com/v2/people/find?email=" +:+ email)
       [("Authorization", "Bearer " +:+ key)] [] = Ok resp →
     (clearbit E email w).1 = not_found).
Proof.
  intros Hv Hs. unfold haveibeenpwned, emailrep, clearbit. rewrite Hv. simpl.
  split; [|split].
  - intros -> Hr. run_m. by rewrite Hr; simpl; rewrite Hs.
  - intros Hr. run_m. by rewrite Hr; simpl; rewrite Hs.
  - intros -> Hr. run_m. by rewrite Hr; simpl; rewrite Hs.
Qed.

(** The username adapters hand the sanitized name to the tool. *)
Lemma sherlock_maigret_pass_sanitized (c8 : ascii) (username : string)
    (p : completed_process) (w : world content) :
  validate_username username = true →
  returncode p = 0%Z →
  (subprocess_run E (Args ["sherlock"; "--version"]) = Ok p →
   trace (sherlock E c8 username w).2
   = (trace w ++
      [ Spawn (Args ["sherlock"; "--version"]) None;
        Spawn (Args ["sherlock"; sanitize_input c8 username; "--print-found"])
              (Some 180%Z) ])%list)
  ∧ (subprocess_run E (Args ["maigret"; "--version"]) = Ok p →
     trace (maigret E c8 username w).2
     = (trace w ++
        [ Spawn (Args ["maigret"; "--version"]) None;
          Spawn (Args ["maigret"; sanitize_input c8 username; "--print-found"])
                (Some 180%Z) ])%list).
Proof.
  intros Hv Hr. unfold sherlock, maigret. rewrite Hv. simpl.
  unfold safe_subprocess_call. simpl. unfold _command_exists, run.
  split; intros Hp; run_m; rewrite Hp, Hr; simpl; by rewrite <- app_assoc.
Qed.

(** The email adapters hand the address to the tool as it came. *)
Lemma socialscan_holehe_pass_unchanged (email : string)
    (p : completed_process) (w : world content) :
  validate_email E email = true →
  returncode p = 0%Z →
  (subprocess_run E (Args ["socialscan"; "--version"]) = Ok p →
   trace (socialscan E email w).2
   = (trace w ++ [ Spawn (Args ["socialscan"; "--version"]) None;
                   Spawn (Args ["socialscan"; email]) (Some 120%Z) ])%list)
  ∧ (subprocess_run E (Args ["holehe"; "--version"]) = Ok p →
     trace (holehe E email w).2
     = (trace w ++ [ Spawn (Args ["holehe"; "--version"]) None;
                     Spawn (Args ["holehe"; email]) (Some 120%Z) ])%list).
Proof.
  intros Hv Hr. unfold socialscan, holehe. rewrite Hv. simpl.
  unfold safe_subprocess_call. simpl. unfold _command_exists, run.
  split; intros Hp; run_m; rewrite Hp, Hr; simpl; by rewrite <- app_assoc.
Qed.

End AdapterFacts.

(** C2.  With a valid email and the API keys present, a response of status
    404 makes the verifier adapter ([hunterio]) and the leak-check adapter
    ([leakcheck]) return a failure outcome, a dict with the key [error] and
    the message for status 404: unlike the three other HTTP adapters they
    have no branch for 404. *)
Theorem hunterio_leakcheck_404_is_failure {content : Type} (E : platform content)
    (email hunter_key leakcheck_key : string)
    (hunter_resp leakcheck_resp : http_response) (w : world content) :
  validate_email E email = true →
  api_key E "HUNTER_API_KEY" = Some hunter_key →
  session_get E "https://api.hunter.io/v2/email-verifier" []
    [("email", email); ("api_key", hunter_key)] = Ok hunter_resp →
  status_code hunter_resp = 404%Z →
  api_key E "LEAKCHECK_API_KEY" = Some leakcheck_key →
  session_get E "https://leakcheck.io/api/public" []
    [("key", leakcheck_key); ("check", email); ("type", "email")]
  = Ok leakcheck_resp →
  status_code leakcheck_resp = 404%Z →
  (hunterio E email w).1 = JDict [("error", JStr "خطأ API: 404")]
  ∧ (leakcheck E email w).1 = JDict [("error", JStr "خطأ API: 404")].
Proof.
  intros Hv Hk Hr Hs Hk' Hr' Hs'.
  unfold hunterio, leakcheck. rewrite Hv, Hk, Hk'. run_m.
  rewrite Hr, Hr'. simpl. by rewrite Hs, Hs'.
Qed.

Lemma hunterio_leakcheck_404_is_failure_witness :
  (hunterio Demo.host "user@example.com" Demo.start).1
  = JDict [("error", JStr "خطأ API: 404")]
  ∧ (leakcheck Demo.host "user@example.com" Demo.start).1
    = JDict [("error", JStr "خطأ API: 404")].
Proof.
  apply (hunterio_leakcheck_404_is_failure Demo.host "user@example.com"
           "secret" "secret"
           {| status_code := 404; text := "Not Found";
              json_body := Raise (OtherException "JSONDecodeError") |}
           {| status_code := 404; text := "Not Found";
              json_body := Raise (OtherException "JSONDecodeError") |}
           Demo.start);
    reflexivity.
Defined.

(** C3.  [socialscan] and [holehe] validate the address but do not sanitize
    it: for the valid address o'brien@example.com the argument handed to the
    tool is the address itself, apostrophe included, and it differs from
    what [sanitize_input] makes of it.  (The two username adapters do pass
    the sanitized name, see [sherlock_maigret_pass_sanitized].) *)
Theorem socialscan_holehe_skip_sanitize (c8 : ascii) :
  trace (socialscan Demo.host "o'brien@example.com" Demo.start).2
  = [ Spawn (Args ["socialscan"; "--version"]) None;
      Spawn (Args ["socialscan"; "o'brien@example.com"]) (Some 120%Z) ]
  ∧ trace (holehe Demo.host "o'brien@example.com" Demo.start).2
    = [ Spawn (Args ["holehe"; "--version"]) None;
        Spawn (Args ["holehe"; "o'brien@example.com"]) (Some 120%Z) ]
  ∧ Py.contains_char "'" "o'brien@example.com" = true
  ∧ String.eqb (sanitize_input c8 "o'brien@example.com") "o'brien@example.com"
    = false.
Proof.
  repeat split; try reflexivity.
  destruct (String.eqb_spec (sanitize_input c8 "o'brien@example.com")
                            "o'brien@example.com") as [Heq|]; [|done].
  assert (Py.contains_char "'" (sanitize_input c8 "o'brien@example.com") = false)
    as H.
  { apply sanitize_input_clean. unfold dangerous_chars. set_solver. }
  rewrite Heq in H. discriminate.
Qed.

(** ** The search *)

(** On a target that neither validator of the code accepts,
    [comprehensive_search] with automatic classification returns the
    classification error alone -- no per-source outcomes, no report -- and
    leaves the world as it was: no adapter was invoked, nothing was sent or
    spawned, and no report was written. *)
Lemma comprehensive_search_rejects_unsupported {content : Type}
    (E : platform content) (c8 : ascii) (target : string) (w : world content) :
  validate_email E target = false →
  validate_username target = false →
  comprehensive_search E c8 target "auto" w
  = (JDict [("error", JStr "نوع الهدف غير مدعوم")], w).
Proof.
  intros He Hu. unfold comprehensive_search, classify. simpl.
  by rewrite He, Hu.
Qed.

(** The target of two letters is rejected. *)
Example two_letters_are_rejected :
  comprehensive_search Demo.host "$" "ab" "auto" Demo.start
  = (JDict [("error", JStr "نوع الهدف غير مدعوم")], Demo.start).
Proof.
  apply (comprehensive_search_rejects_unsupported Demo.host "$" "ab" Demo.start);
    reflexivity.
Qed.

(** ** The email check *)

(** A name that is no attribute of the object is skipped. *)
Lemma check_sources_skips_unknown {content : Type} (E : platform content)
    (c8 : ascii) (name : string) (rest : list json) (email : string)
    (results : list (string * pyobj)) :
  hasattr name = false →
  check_sources E c8 (JStr name :: rest) email results
  = check_sources E c8 rest email results.
Proof. unfold hasattr. simpl. by destruct (getattr name). Qed.

(** Asking the email check for the source [comprehensive_search] runs a
    whole search: seventeen requests, probes and pauses, and one report
    written. *)
Lemma email_check_runs_whole_search (c8 : ascii) :
  let r := api_email_check Demo.host c8
             (JDict [ ("email", JStr "user@example.com");
                      ("sources", JList [JStr "comprehensive_search"]) ])
             Demo.start in
  status_of r.1 = 200%Z
  ∧ length (trace r.2) = 17%nat
  ∧ size (files r.2) = 1%nat.
Proof. vm_compute. done. Qed.

(** C5.  The email check does not keep to the source adapters: a requested
    name is looked up among all attributes of the toolkit object.  The name
    [validator] is an attribute and no adapter; it is called, the call
    raises, and the name appears in the result with a failure outcome
    instead of being left out. *)
Theorem api_email_check_calls_any_attribute {content : Type} (E : platform content)
    (c8 : ascii) (raw : string) (w : world content) :
  validate_email E (Py.lower (Py.strip raw)) = true →
  hasattr "validator" = true
  ∧ source_of_name "validator" = None
  ∧ api_email_check E c8
      (JDict [("email", JStr raw); ("sources", JList [JStr "validator"])]) w
    = (Response 200
         (JDict [ ("success", JBool true);
                  ("email", JStr (Py.lower (Py.strip raw)));
                  ("results",
                   JDict [ ("validator",
                            JDict [ ("error",
                                     JStr ("خطأ في validator: "
                                           +:+ str_exn E TypeError)) ]) ]);
                  ("timestamp", JStr (now_isoformat E)) ]), w).
Proof.
  intros Hv. split; [done|]. split; [done|].
  unfold api_email_check. simpl. by rewrite Hv.
Qed.

Lemma api_email_check_calls_any_attribute_witness :
  hasattr "validator" = true
  ∧ source_of_name "validator" = None
  ∧ api_email_check Demo.host "$"
      (JDict [ ("email", JStr " User@Example.com ");
               ("sources", JList [JStr "validator"]) ]) Demo.start
    = (Response 200
         (JDict [ ("success", JBool true);
                  ("email", JStr "user@example.com");
                  ("results",
                   JDict [ ("validator",
                            JDict [ ("error",
                                     JStr "خطأ في validator: TypeError") ]) ]);
                  ("timestamp", JStr "2024-05-01T12:00:00") ]), Demo.start).
Proof.
  apply (api_email_check_calls_any_attribute Demo.host "$" " User@Example.com "
           Demo.start).
  reflexivity.
Defined.

(** ** The report store *)

Section StoreFacts.

Implicit Types (s name suffix : string).

Lemma endswith_refl s : Py.endswith s s = true.
Proof. destruct s; simpl; by rewrite ?Ascii.eqb_refl, ?String.eqb_refl. Qed.

Lemma endswith_app a s suffix :
  Py.endswith s suffix = true → Py.endswith (a +:+ s) suffix = true.
Proof.
  intros H. induction a as [|c a IH]; [done|].
  simpl. rewrite IH. apply orb_true_r.
Qed.

Lemma generated_filename_json {content : Type} (E : platform content)
    (report : json) name :
  generated_filename E report = Ok name → Py.endswith name ".json" = true.
Proof.
  unfold generated_filename. destruct (target_slug report) as [slug|]; [|done].
  simpl. intros [= <-]. do 4 apply endswith_app. apply endswith_refl.
Qed.

Lemma path_join_reports name :
  Py.contains_char "/" name = false →
  Py.path_join "./reports" name = "./reports/" +:+ name.
Proof.
  intros H. unfold Py.path_join.
  destruct name as [|c name]; [done|].
  simpl in *. by apply orb_false_elim in H as [-> _].
Qed.

Lemma basename_plain name :
  Py.contains_char "/" name = false → Py.basename name = name.
Proof. destruct name as [|c name]; [done|]. simpl. by intros ->. Qed.

Lemma basename_reports name :
  Py.contains_char "/" name = false →
  Py.basename ("./reports/" +:+ name) = name.
Proof. intros H. simpl. by apply basename_plain. Qed.

End StoreFacts.

(** C6.  [api_get_report] answers with the validation error exactly when the
    filename holds a slash or a backslash or does not end in [.json], and
    then leaves the world untouched: no file was looked up or read.  For a
    filename that passes the guard it answers not-found exactly when no file
    is stored under the joined path, and when a file is stored there whose
    content loads as a document it returns that document. *)
Theorem api_get_report_guard {content : Type} (E : platform content)
    (filename : string) (w : world content) :
  let r := api_get_report E filename w in
  let filepath := Py.path_join (REPORTS_DIRECTORY E) filename in
  let rejected :=
    Py.contains_char "/" filename = true ∨ Py.contains_char "\" filename = true
    ∨ Py.endswith filename ".json" = false in
  (r.1 = failure 400 "اسم ملف غير صحيح" ↔ rejected)
  ∧ (rejected → r.2 = w)
  ∧ (¬ rejected →
       (r.1 = failure 404 "التقرير غير موجود" ↔ files w !! filepath = None)
       ∧ ∀ data report_data,
           files w !! filepath = Some data →
           json_load E data = Some report_data →
           r.1 = Response 200 (JDict [ ("success", JBool true);
                                       ("report", report_data) ])).
Proof.
  intros r filepath rejected. subst r. unfold api_get_report.
  assert (unsafe_filename filename = true ↔ rejected) as Hguard.
  { unfold unsafe_filename, rejected.
    rewrite !orb_true_iff, negb_true_iff. tauto. }
  destruct (unsafe_filename filename) eqn:Hu; simpl.
  - split; [by rewrite <- Hguard|]. split; [done|].
    intros Hn. destruct Hn. by apply Hguard.
  - assert (¬ rejected) as Hn by (rewrite <- Hguard; done).
    run_m. unfold path_exists, load_file. fold filepath.
    split; [|split; [done|]].
    { split; [|done]. case_bool_decide; simpl; [|done].
      by destruct (files w !! filepath ≫= json_load E). }
    intros _. case_bool_decide as Hp; simpl.
    + destruct Hp as [data Hdata]. rewrite Hdata. simpl. split.
      * by destruct (json_load E data).
      * by intros ? ? [= <-] ->.
    + apply eq_None_not_Some in Hp. by rewrite Hp.
Qed.

Lemma api_get_report_guard_witness :
  (api_get_report Demo.host "../secret.json" Demo.start).1
  = failure 400 "اسم ملف غير صحيح"
  ∧ (api_get_report Demo.host "../secret.json" Demo.start).2 = Demo.start
  ∧ (api_get_report Demo.host "x.txt" Demo.start).1
    = failure 400 "اسم ملف غير صحيح"
  ∧ (api_get_report Demo.host "x.txt" Demo.start).2 = Demo.start
  ∧ (api_get_report Demo.host "missing.json" Demo.start).1
    = failure 404 "التقرير غير موجود".
Proof.
  pose proof (api_get_report_guard Demo.host "../secret.json" Demo.start)
    as (H1 & H2 & _).
  pose proof (api_get_report_guard Demo.host "x.txt" Demo.start)
    as (H3 & H4 & _).
  pose proof (api_get_report_guard Demo.host "missing.json" Demo.start)
    as (_ & _ & H5).
  split; [apply H1; left; reflexivity|].
  split; [apply H2; left; reflexivity|].
  split; [apply H3; right; right; reflexivity|].
  split; [apply H4; right; right; reflexivity|].
  apply H5; [|reflexivity].
  intros [H|[H|H]]; vm_compute in H; discriminate.
Defined.

(** C8, as the code has it.  [save_report] returns the path of the file,
    the report directory included, never a bare file name, and
    [api_get_report] rejects that path in every world, because it holds a
    slash.  What round-trips is the last component of the returned path:
    when the route reads the directory the reporter writes to, the generated
    file name holds no separator, the file can be written and the JSON codec
    reads back what it wrote, fetching by that component returns a document
    equal to the saved report. *)
Theorem save_then_get_by_basename {content : Type} (E : platform content) :
  (∀ (report : json) (w w' : world content) (path : string),
     save_report E reporter report None w = (Ok path, w') →
     ∃ name,
       generated_filename E report = Ok name
       ∧ path = "./reports/" +:+ name
       ∧ files w' = <[path := json_dump E report]> (files w)
       ∧ ∀ w'', api_get_report E path w''
                = (failure 400 "اسم ملف غير صحيح", w''))
  ∧ (∀ (report : json) (name : string) (w : world content),
       REPORTS_DIRECTORY E = reports_dir reporter →
       generated_filename E report = Ok name →
       Py.contains_char "/" name = false →
       Py.contains_char "\" name = false →
       writable E (Py.path_join (reports_dir reporter) name) = true →
       json_load E (json_dump E report) = Some report →
       ∃ path w',
         save_report E reporter report None w = (Ok path, w')
         ∧ Py.basename path = name
         ∧ (api_get_report E (Py.basename path) w').1
           = Response 200 (JDict [("success", JBool true); ("report", report)])).
Proof.
  split.
  - intros report w w' path. unfold save_report.
    destruct (generated_filename E report) as [name|e] eqn:Hname; [|by intros [=]].
    assert (Py.path_join (reports_dir reporter) name = "./reports/" +:+ name) as Hp.
    { unfold generated_filename in Hname.
      destruct (target_slug report); [|done]. simpl in Hname.
      by injection Hname as <-. }
    rewrite Hp. run_m.
    destruct (writable E _); simpl; [|by intros [=]].
    intros [= <- <-]. exists name. split; [done|]. split; [done|]. split; [done|].
    intros w''. by unfold api_get_report, unsafe_filename; simpl;
      rewrite orb_true_r.
  - intros report name w Hdir Hname Hslash Hback Hw Hcodec.
    simpl reports_dir in *.
    rewrite path_join_reports in Hw by done.
    unfold save_report. rewrite Hname. simpl reports_dir.
    rewrite path_join_reports by done.
    run_m. rewrite Hw. simpl.
    eexists _, _. split; [reflexivity|].
    rewrite basename_reports by done. split; [done|].
    unfold api_get_report, unsafe_filename.
    rewrite (generated_filename_json E report name Hname), Hslash, Hback. simpl.
    rewrite Hdir, path_join_reports by done.
    run_m. unfold path_exists, load_file, write_file. simpl.
    case_bool_decide as Hp; simpl.
    + by rewrite lookup_insert_eq; simpl; rewrite Hcodec.
    + destruct Hp. rewrite lookup_insert_eq. by eexists.
Qed.

Lemma save_then_get_by_basename_witness :
  let saved := save_report Demo.host reporter Demo.sample_report None Demo.start in
  let name := "osint_report_user_example_com_20240501_120000.json" in
  (∃ name',
     generated_filename Demo.host Demo.sample_report = Ok name'
     ∧ "./reports/" +:+ name = "./reports/" +:+ name'
     ∧ files saved.2
       = <["./reports/" +:+ name := json_dump Demo.host Demo.sample_report]>
           (files Demo.start)
     ∧ ∀ w'', api_get_report Demo.host ("./reports/" +:+ name) w''
              = (failure 400 "اسم ملف غير صحيح", w''))
  ∧ ∃ path w',
      save_report Demo.host reporter Demo.sample_report None Demo.start = (Ok path, w')
      ∧ Py.basename path = name
      ∧ (api_get_report Demo.host (Py.basename path) w').1
        = Response 200 (JDict [ ("success", JBool true);
                                ("report", Demo.sample_report) ]).
Proof.
  pose proof (save_then_get_by_basename Demo.host) as [Hpath Hround].
  split.
  - apply (Hpath Demo.sample_report Demo.start). reflexivity.
  - apply (Hround Demo.sample_report
             "osint_report_user_example_com_20240501_120000.json" Demo.start);
      reflexivity.
Defined.

(** C8, as stated, fails: fetching by what [save_report] returned is
    rejected by the traversal guard. *)
Lemma get_by_returned_path_rejected :
  let saved := save_report Demo.host reporter Demo.sample_report None Demo.start in
  let path := "./reports/osint_report_user_example_com_20240501_120000.json" in
  saved.1 = Ok path
  ∧ (api_get_report Demo.host path saved.2).1 = failure 400 "اسم ملف غير صحيح"
  ∧ (api_get_report Demo.host path saved.2).1
    ≠ Response 200 (JDict [ ("success", JBool true);
                            ("report", Demo.sample_report) ]).
Proof. split; [reflexivity|]. split; [reflexivity|]. discriminate. Qed.

(** The round trip needs the route to read the directory the reporter
    writes to: with [REPORTS_DIRECTORY] set elsewhere the saved report is
    not found under its name. *)
Example basename_fetch_needs_same_directory :
  let saved :=
    save_report Relocated.host reporter Demo.sample_report None Demo.start in
  let name := "osint_report_user_example_com_20240501_120000.json" in
  saved.1 = Ok ("./reports/" +:+ name)
  ∧ REPORTS_DIRECTORY Relocated.host = "/srv/reports"
  ∧ (api_get_report Relocated.host name saved.2).1
    = failure 404 "التقرير غير موجود".
Proof. repeat split; reflexivity. Qed.

(** It also needs a generated name without separator.  The target of a
    report goes into the name with only the at sign and the dots replaced:
    with a slash in it the last component of the path is not the name the
    file was stored under, and with a backslash the guard rejects the
    name. *)
Example basename_fetch_needs_plain_name :
  let saved := save_report Demo.host reporter Relocated.slash_report None Demo.start in
  let path := "./reports/osint_report_a/b_example_com_20240501_120000.json" in
  let saved' :=
    save_report Demo.host reporter Relocated.backslash_report None Demo.start in
  let path' := "./reports/osint_report_a\b_example_com_20240501_120000.json" in
  saved.1 = Ok path
  ∧ Py.basename path = "b_example_com_20240501_120000.json"
  ∧ (api_get_report Demo.host (Py.basename path) saved.2).1
    = failure 404 "التقرير غير موجود"
  ∧ saved'.1 = Ok path'
  ∧ Py.basename path' = "osint_report_a\b_example_com_20240501_120000.json"
  ∧ (api_get_report Demo.host (Py.basename path') saved'.2).1
    = failure 400 "اسم ملف غير صحيح".
Proof. repeat split; reflexivity. Qed.

(** * More of the code *)

Section MoreStringFacts.

Implicit Types (s t : string) (c d : ascii) (denylist : list ascii).

Lemma last_char_app_one t c : Py.last_char (t +:+ String c "") = Some c.
Proof.
  induction t as [|a t IH]; [done|].
  change (String a t +:+ String c "") with (String a (t +:+ String c "")).
  rewrite last_char_cons, IH. by destruct t.
Qed.

Lemma class_not_space c : username_char c = true → Py.isspace c = false.
Proof. destruct c as [[] [] [] [] [] [] [] []]; vm_compute; congruence. Qed.

Lemma length_remove_char c s :
  (String.length (Py.remove_char c s) ≤ String.length s)%nat.
Proof.
  induction s as [|a s IH]; simpl; [done|].
  destruct (Ascii.eqb a c); simpl; lia.
Qed.

Lemma length_scrub denylist s :
  (String.length (fold_left (λ sanitized char, Py.remove_char char sanitized)
                            denylist s) ≤ String.length s)%nat.
Proof.
  revert s. induction denylist as [|d denylist IH]; intros s; simpl; [done|].
  etrans; [apply IH|apply length_remove_char].
Qed.

Lemma length_lstrip s : (String.length (Py.lstrip s) ≤ String.length s)%nat.
Proof.
  induction s as [|a s IH]; simpl; [done|].
  destruct (Py.isspace a); simpl; lia.
Qed.

Lemma length_rstrip s : (String.length (Py.rstrip s) ≤ String.length s)%nat.
Proof.
  induction s as [|a s IH]; [done|].
  rewrite rstrip_cons. destruct (Py.rstrip s).
  - destruct (Py.isspace a); simpl in *; lia.
  - simpl in *. lia.
Qed.

Lemma all_chars_remove (p : ascii → bool) c s :
  Py.all_chars p s = true → Py.all_chars p (Py.remove_char c s) = true.
Proof.
  induction s as [|a s IH]; simpl; [done|].
  intros [Ha Hs]%andb_true_iff.
  destruct (Ascii.eqb a c); simpl; [by apply IH|]. by rewrite Ha, IH.
Qed.

Lemma all_chars_scrub (p : ascii → bool) denylist s :
  Py.all_chars p s = true →
  Py.all_chars p (fold_left (λ sanitized char, Py.remove_char char sanitized)
                            denylist s) = true.
Proof.
  revert s. induction denylist as [|d denylist IH]; intros s H; simpl; [done|].
  by apply IH, all_chars_remove.
Qed.

Lemma remove_char_app c s t :
  Py.remove_char c (s +:+ t) = Py.remove_char c s +:+ Py.remove_char c t.
Proof.
  induction s as [|a s IH]; [done|].
  change (String a s +:+ t) with (String a (s +:+ t)). simpl.
  rewrite IH. by destruct (Ascii.eqb a c).
Qed.

Lemma scrub_app denylist s t :
  fold_left (λ sanitized char, Py.remove_char char sanitized) denylist (s +:+ t)
  = fold_left (λ sanitized char, Py.remove_char char sanitized) denylist s
    +:+ fold_left (λ sanitized char, Py.remove_char char sanitized) denylist t.
Proof.
  revert s t. induction denylist as [|d denylist IH]; intros s t; simpl; [done|].
  by rewrite remove_char_app, IH.
Qed.

Lemma scrub_empty denylist :
  fold_left (λ sanitized char, Py.remove_char char sanitized) denylist "" = "".
Proof. induction denylist; simpl; auto. Qed.

Lemma scrub_one denylist c :
  fold_left (λ sanitized char, Py.remove_char char sanitized) denylist (String c "")
  = (if bool_decide (c ∈ denylist) then "" else String c "").
Proof.
  induction denylist as [|d denylist IH]; simpl; [done|].
  destruct (Ascii.eqb_spec c d) as [->|Hne].
  - rewrite bool_decide_eq_true_2 by left. apply scrub_empty.
  - rewrite IH. destruct (decide (c ∈ denylist)) as [Hin|Hout].
    + rewrite !bool_decide_eq_true_2; [done|by right|done].
    + rewrite !bool_decide_eq_false_2; [done| |done].
      by intros [?|?]%elem_of_cons.
Qed.

Lemma app_empty_r s : s +:+ "" = s.
Proof.
  induction s as [|a s IH]; [done|].
  change (String a s +:+ "") with (String a (s +:+ "")). by rewrite IH.
Qed.

Lemma class_lstrip s : Py.all_chars username_char s = true → Py.lstrip s = s.
Proof.
  destruct s as [|a s]; [done|]. simpl. intros [Ha _]%andb_true_iff.
  by rewrite (class_not_space a Ha).
Qed.

Lemma class_rstrip s : Py.all_chars username_char s = true → Py.rstrip s = s.
Proof.
  induction s as [|a s IH]; [done|]. simpl Py.all_chars.
  intros [Ha Hs]%andb_true_iff. rewrite rstrip_cons, IH by done.
  destruct s; [|done]. by rewrite (class_not_space a Ha).
Qed.

Lemma class_rstrip_line_feed s :
  Py.all_chars username_char s = true →
  Py.rstrip (s +:+ String Py.LF "") = s.
Proof.
  induction s as [|a s IH]; [done|]. simpl Py.all_chars.
  intros [Ha Hs]%andb_true_iff.
  change (String a s +:+ String Py.LF "") with (String a (s +:+ String Py.LF "")).
  rewrite rstrip_cons, IH by done.
  destruct s; [|done]. by rewrite (class_not_space a Ha).
Qed.

Lemma class_contains c s :
  username_char c = false → Py.all_chars username_char s = true →
  Py.contains_char c s = false.
Proof.
  intros Hc. induction s as [|a s IH]; simpl; [done|].
  intros [Ha Hs]%andb_true_iff. rewrite IH by done.
  destruct (Ascii.eqb_spec a c) as [->|]; [congruence|done].
Qed.

End MoreStringFacts.

(** ** More on the validator *)

(** X1.  On a string that went through [strip], as the routes pass it,
    [validate_username] is exact: it accepts the string exactly when it has
    at least three characters and all of them are in the class.  The final
    line feed that the pattern lets through cannot survive [strip]. *)
Theorem validate_username_after_strip (raw : string) :
  validate_username (Py.strip raw) = true ↔
  (3 ≤ String.length (Py.strip raw))%nat
  ∧ Py.all_chars username_char (Py.strip raw) = true.
Proof.
  rewrite validate_username_spec. split.
  - intros [Hlen (t & Ht & Hall & [Hs|Hs])]; [split; [done|by rewrite Hs]|].
    pose proof (strip_last raw Py.LF) as Hlast.
    rewrite Hs, last_char_app_one in Hlast. by specialize (Hlast eq_refl).
  - intros [Hlen Hall]. split; [done|]. exists (Py.strip raw).
    split; [|by auto]. intros Hs. rewrite Hs in Hlen. simpl in Hlen. lia.
Qed.

(** X2.  The strings [sanitize_input] leaves unchanged are exactly those that
    hold no character of the denylist and have no whitespace at either
    end. *)
Theorem sanitize_input_fixed_iff (c8 : ascii) (s : string) :
  sanitize_input c8 s = s ↔
  forallb (λ c, negb (Py.contains_char c s)) (dangerous_chars c8) = true
  ∧ Py.strip s = s.
Proof.
  split.
  - intros Hs. split.
    + rewrite <- Hs. apply forallb_forall. intros c Hc%list_elem_of_In.
      by rewrite sanitize_input_clean.
    + rewrite <- Hs. unfold sanitize_input.
      destruct (String.eqb s ""); [done|]. apply strip_idempotent.
  - intros [Hclean Hstrip]. apply sanitize_input_fixed; [|done].
    intros c Hc%list_elem_of_In.
    apply (proj1 (forallb_forall _ _) Hclean) in Hc. by apply negb_true_iff.
Qed.

(** X3.  [sanitize_input] only removes characters: its output is never
    longer than its input. *)
Theorem sanitize_input_length (c8 : ascii) (s : string) :
  (String.length (sanitize_input c8 s) ≤ String.length s)%nat.
Proof.
  unfold sanitize_input. destruct (String.eqb s ""); [simpl; lia|].
  unfold Py.strip.
  etrans; [apply length_lstrip|]. etrans; [apply length_rstrip|].
  apply length_scrub.
Qed.

(** X4.  What [sherlock] and [maigret] make of an accepted username:
    [sanitize_input] of a string that [validate_username] accepts consists of
    class characters only, and, when the eighth denylist entry is itself no
    class character, it is the username without its final line feed, if it
    had one. *)
Theorem sanitized_username_in_class (c8 : ascii) (username : string) :
  validate_username username = true →
  Py.all_chars username_char (sanitize_input c8 username) = true
  ∧ (username_char c8 = false →
     username = sanitize_input c8 username
     ∨ username = sanitize_input c8 username +:+ String Py.LF "").
Proof.
  intros (Hlen & t & Ht & Hall & Hs)%validate_username_spec.
  assert (Py.all_chars username_char
            (fold_left (λ sanitized char, Py.remove_char char sanitized)
                       (dangerous_chars c8) t) = true) as Hscrub
    by by apply all_chars_scrub.
  assert (sanitize_input c8 username
          = fold_left (λ sanitized char, Py.remove_char char sanitized)
                      (dangerous_chars c8) t) as Hsan.
  { unfold sanitize_input.
    destruct (String.eqb_spec username "") as [He|_].
    { rewrite He in Hlen. simpl in Hlen. lia. }
    destruct Hs as [->| ->].
    - unfold Py.strip. by rewrite class_rstrip, class_lstrip.
    - rewrite scrub_app, scrub_one. unfold Py.strip. case_bool_decide.
      + by rewrite app_empty_r, class_rstrip, class_lstrip.
      + by rewrite class_rstrip_line_feed, class_lstrip. }
  rewrite Hsan. split; [done|].
  intros Hc8.
  rewrite scrub_fixed; [destruct Hs; auto|].
  intros c Hc. apply class_contains; [|done].
  unfold dangerous_chars in Hc.
  repeat (apply elem_of_cons in Hc as [->|Hc]; [done|]).
  by apply elem_of_nil in Hc.
Qed.

Lemma sanitized_username_in_class_witness :
  Py.all_chars username_char (sanitize_input "$" ("abc" +:+ String Py.LF "")) = true
  ∧ (username_char "$" = false →
     "abc" +:+ String Py.LF "" = sanitize_input "$" ("abc" +:+ String Py.LF "")
     ∨ "abc" +:+ String Py.LF ""
       = sanitize_input "$" ("abc" +:+ String Py.LF "") +:+ String Py.LF "").
Proof.
  apply (sanitized_username_in_class "$" ("abc" +:+ String Py.LF "")). reflexivity.
Defined.

Section TraceFacts.

Context {content : Type} (E : platform content) (c8 : ascii).

Lemma appends_outcome {A : Type} (c : M content A) (a : A) (events : list event)
    (w : world content) :
  appends c a events → (c w).1 = a.
Proof. intros H. by rewrite H. Qed.

Ltac solve_appends :=
  first
    [ eexists _, []; split; [|reflexivity];
      intros [fs tr]; run_m; rewrite app_nil_r; reflexivity
    | eexists _, _; split;
      [ intros [fs tr]; run_m; unfold run, _command_exists, http_get; run_m;
        rewrite <- ?app_assoc; simpl; reflexivity
      | reflexivity ] ].

Lemma haveibeenpwned_appends email :
  ∃ out events, appends (haveibeenpwned E email) out events
                ∧ forallb is_call events = true.
Proof.
  unfold haveibeenpwned.
  destruct (validate_email E email); simpl; [|solve_appends].
  destruct (api_key E "HIBP_API_KEY"); solve_appends.
Qed.

Lemma hunterio_appends email :
  ∃ out events, appends (hunterio E email) out events
                ∧ forallb is_call events = true.
Proof.
  unfold hunterio.
  destruct (validate_email E email); simpl; [|solve_appends].
  destruct (api_key E "HUNTER_API_KEY"); solve_appends.
Qed.

Lemma leakcheck_appends email :
  ∃ out events, appends (leakcheck E email) out events
                ∧ forallb is_call events = true.
Proof.
  unfold leakcheck.
  destruct (validate_email E email); simpl; [|solve_appends].
  destruct (api_key E "LEAKCHECK_API_KEY"); solve_appends.
Qed.

Lemma emailrep_appends email :
  ∃ out events, appends (emailrep E email) out events
                ∧ forallb is_call events = true.
Proof.
  unfold emailrep.
  destruct (validate_email E email); simpl; solve_appends.
Qed.

Lemma clearbit_appends email :
  ∃ out events, appends (clearbit E email) out events
                ∧ forallb is_call events = true.
Proof.
  unfold clearbit.
  destruct (validate_email E email); simpl; [|solve_appends].
  destruct (api_key E "CLEARBIT_API_KEY"); solve_appends.
Qed.

Lemma safe_subprocess_call_appends cmd timeout :
  ∃ out events, appends (safe_subprocess_call E cmd timeout) out events
                ∧ forallb is_call events = true.
Proof.
  unfold safe_subprocess_call.
  destruct (first_arg cmd) as [cmd0|e]; [|solve_appends].
  destruct (subprocess_run E (Args [cmd0; "--version"])) as [p|e] eqn:Hprobe;
    [destruct (returncode p =? 0)%Z eqn:Hp|destruct e];
    (eexists _, _; split;
     [ intros [fs tr]; run_m; unfold run, _command_exists; run_m;
       rewrite Hprobe; simpl; rewrite ?Hp; simpl; rewrite <- ?app_assoc;
       reflexivity
     | reflexivity ]).
Qed.

Lemma invoke_appends (s : source) (target : string) :
  ∃ events, appends (invoke E c8 s target) (outcome_of E c8 s target) events
            ∧ forallb is_call events = true.
Proof.
  assert (∃ out events, appends (invoke E c8 s target) out events
                        ∧ forallb is_call events = true) as (out & events & H & Hc).
  { destruct s; simpl;
      [ apply haveibeenpwned_appends | apply hunterio_appends
      | apply leakcheck_appends | apply emailrep_appends | apply clearbit_appends
      | unfold holehe | unfold socialscan | unfold sherlock | unfold maigret ];
      match goal with
      | |- context [if negb ?b then _ else _] =>
          destruct b; simpl; [apply safe_subprocess_call_appends|solve_appends]
      end. }
  exists events. split; [|done].
  unfold outcome_of. by rewrite (appends_outcome _ _ _ _ H).
Qed.

Lemma rbind_dict {A : Type} (x : result A) (k : A → result json) :
  (∀ a j, k a = Ok j → ∃ d, j = JDict d) →
  ∀ j, rbind x k = Ok j → ∃ d, j = JDict d.
Proof. intros H j. destruct x; simpl; [apply H|done]. Qed.

Lemma catch_dict (handler : pyexn → json) (r : result json) :
  (∀ e, ∃ d, handler e = JDict d) →
  (∀ j, r = Ok j → ∃ d, j = JDict d) →
  ∃ d, catch handler r = JDict d.
Proof. intros Hh Hr. destruct r; simpl; [by apply Hr|apply Hh]. Qed.

Ltac dict_tac :=
  repeat first
    [ apply rbind_dict; intros ?; cbv beta
    | match goal with
      | |- ∀ j, (if ?b then _ else _) = Ok j → _ => destruct b
      | |- ∀ j, match ?x with _ => _ end = Ok j → _ => destruct x
      end
    | by (intros ? [= <-]; eexists)
    | by intros ? [=] ].

(** Every source but the leak check returns a dict on every path. *)
Lemma http_outcome_is_dict (s : source) (email : string) (w : world content) :
  s ∈ [Haveibeenpwned; Hunterio; Emailrep; Clearbit] →
  ∃ d, (invoke E c8 s email w).1 = JDict d.
Proof.
  intros Hs.
  assert (∀ e, ∃ d, unexpected E e = JDict d) as Hu by by eexists.
  repeat (apply elem_of_cons in Hs as [->|Hs]); [| | | |by apply elem_of_nil in Hs];
    simpl; unfold haveibeenpwned, hunterio, emailrep, clearbit;
    (destruct (validate_email E email); simpl; [|by eexists]);
    try (match goal with |- context [api_key E ?k] => destruct (api_key E k) end;
         [|by eexists]);
    run_m; apply catch_dict; try done.
  - intros e. destruct e; by eexists.
  - dict_tac.
  - dict_tac.
  - dict_tac.
  - unfold get2. dict_tac.
Qed.

Lemma safe_subprocess_call_is_dict cmd timeout (w : world content) :
  ∃ d, (safe_subprocess_call E cmd timeout w).1 = JDict d.
Proof.
  unfold safe_subprocess_call, _command_exists, run. run_m.
  destruct (first_arg cmd); simpl; [|by eexists].
  destruct (subprocess_run E (Args _)) as [p|e]; simpl.
  - destruct (returncode p =? 0)%Z; simpl; [|by eexists].
    destruct (subprocess_run E cmd) as [q|e]; simpl.
    + destruct (returncode q =? 0)%Z; by eexists.
    + destruct e; by eexists.
  - destruct e; simpl; by eexists.
Qed.

Lemma outcome_is_dict (s : source) (target : string) :
  s ≠ Leakcheck → ∃ d, outcome_of E c8 s target = JDict d.
Proof.
  intros Hs. unfold outcome_of.
  destruct s; try done;
    try (apply http_outcome_is_dict; set_solver);
    simpl; unfold holehe, socialscan, sherlock, maigret;
    match goal with
    | |- context [if negb ?b then _ else _] =>
        destruct b; simpl; [apply safe_subprocess_call_is_dict|by eexists]
    end.
Qed.

(** *** What each source adds to the trace *)

Lemma appends_events {A : Type} (c : M content A) (a : A) (events : list event) :
  appends c a events → trace (c (Build_world ∅ [])).2 = events.
Proof. intros H. by rewrite H. Qed.

(** The five HTTP adapters only send requests. *)
Lemma http_source_requests (s : source) (email : string) :
  s ∈ [Haveibeenpwned; Hunterio; Leakcheck; Emailrep; Clearbit] →
  ∃ out events, appends (invoke E c8 s email) out events
                ∧ forallb is_request events = true.
Proof.
  intros Hs.
  repeat (apply elem_of_cons in Hs as [->|Hs]); [| | | | |by apply elem_of_nil in Hs];
    simpl; unfold haveibeenpwned, hunterio, leakcheck, emailrep, clearbit;
    (destruct (validate_email E email); simpl; [|solve_appends]);
    try (match goal with |- context [api_key E ?k] => destruct (api_key E k) end);
    solve_appends.
Qed.

(** A tool call only starts processes, the probe first. *)
Lemma safe_subprocess_call_spawns (cmd0 : string) (args : list string) (timeout : Z) :
  ∃ out events,
    appends (safe_subprocess_call E (Args (cmd0 :: args)) timeout) out
      (Spawn (Args [cmd0; "--version"]) None :: events)
    ∧ forallb is_spawn events = true.
Proof.
  unfold safe_subprocess_call. simpl first_arg. cbv iota.
  destruct (subprocess_run E (Args [cmd0; "--version"])) as [p|e] eqn:Hprobe;
    [destruct (returncode p =? 0)%Z eqn:Hp|destruct e];
    (eexists _, _; split;
     [ intros [fs tr]; run_m; unfold run, _command_exists; run_m;
       rewrite Hprobe; simpl; rewrite ?Hp; simpl; rewrite <- ?app_assoc;
       reflexivity
     | reflexivity ]).
Qed.

(** The four process adapters only start processes. *)
Lemma process_source_spawns (s : source) (target : string) :
  s ∈ [Holehe; Socialscan; Sherlock; Maigret] →
  ∃ out events, appends (invoke E c8 s target) out events
                ∧ forallb is_spawn events = true.
Proof.
  intros Hs.
  repeat (apply elem_of_cons in Hs as [->|Hs]); [| | | |by apply elem_of_nil in Hs];
    simpl; unfold holehe, socialscan, sherlock, maigret;
    match goal with
    | |- context [if negb ?b then _ else _] => destruct b; simpl; [|solve_appends]
    end;
    match goal with
    | |- context [safe_subprocess_call E (Args (?c :: ?a)) ?t] =>
        destruct (safe_subprocess_call_spawns c a t) as (out & events & H & Hc)
    end;
    eexists out, _; (split; [exact H|exact Hc]).
Qed.

Lemma invoke_events (s : source) (target : string) :
  appends (invoke E c8 s target) (outcome_of E c8 s target) (events_of E c8 s target).
Proof.
  destruct (invoke_appends s target) as (events & H & _).
  unfold events_of. by rewrite (appends_events _ _ _ H).
Qed.

Lemma events_of_requests (s : source) (email : string) :
  s ∈ [Haveibeenpwned; Hunterio; Leakcheck; Emailrep; Clearbit] →
  forallb is_request (events_of E c8 s email) = true.
Proof.
  intros Hs. destruct (http_source_requests s email Hs) as (out & events & H & Hc).
  unfold events_of. by rewrite (appends_events _ _ _ H).
Qed.

Lemma events_of_spawns (s : source) (target : string) :
  s ∈ [Holehe; Socialscan; Sherlock; Maigret] →
  forallb is_spawn (events_of E c8 s target) = true.
Proof.
  intros Hs. destruct (process_source_spawns s target Hs) as (out & events & H & Hc).
  unfold events_of. by rewrite (appends_events _ _ _ H).
Qed.

Lemma events_of_calls (s : source) (target : string) :
  forallb is_call (events_of E c8 s target) = true.
Proof.
  destruct (invoke_appends s target) as (events & H & Hc).
  unfold events_of. by rewrite (appends_events _ _ _ H).
Qed.

(** A username adapter on a name the validator accepts probes its tool. *)
Lemma username_source_probes (target : string) :
  validate_username target = true →
  (∃ rest, events_of E c8 Sherlock target
           = Spawn (Args ["sherlock"; "--version"]) None :: rest)
  ∧ (∃ rest, events_of E c8 Maigret target
             = Spawn (Args ["maigret"; "--version"]) None :: rest).
Proof.
  intros Hv. unfold events_of. simpl. unfold sherlock, maigret. rewrite Hv. simpl.
  split;
    match goal with
    | |- context [safe_subprocess_call E (Args (?c :: ?a)) ?t] =>
        destruct (safe_subprocess_call_spawns c a t) as (out & events & H & _)
    end;
    exists events; by rewrite H.
Qed.

(** The loop over the sources: every source is invoked, in order, and in
    the email loop a pause of one second follows each. *)
Lemma search_sources_events (pause : bool) (sources : list source)
    (target : string) (results : Dict.t) :
  appends (search_sources E c8 pause sources target results)
    (fold_left (λ acc s, Dict.set (source_name s) (outcome_of E c8 s target) acc)
               sources results)
    (concat ((λ s, events_of E c8 s target ++ if pause then [Sleep 1] else [])%list
               <$> sources)).
Proof.
  revert results. induction sources as [|s sources IH]; intros results w.
  - destruct w as [fs tr]. simpl. run_m. by rewrite app_nil_r.
  - cbn -[invoke events_of]. unfold mbind, mret, M_bind, M_ret, bind, ret.
    rewrite (invoke_events s target). cbn -[invoke events_of].
    destruct pause; run_m; rewrite IH; simpl; by rewrite <- !app_assoc.
Qed.

Lemma calls_hold_no_sleep (events : list event) :
  forallb is_call events = true → filter (λ e, is_sleep e = true) events = [].
Proof.
  induction events as [|e events IH]; [done|]. simpl.
  intros [He Hc]%andb_true_iff. rewrite filter_cons.
  destruct e; try done; simpl; by apply IH.
Qed.

Lemma pauses_of_email_loop (sources : list source) (target : string) :
  filter (λ e, is_sleep e = true)
    (concat ((λ s, events_of E c8 s target ++ [Sleep 1])%list <$> sources))
  = replicate (length sources) (Sleep 1).
Proof.
  induction sources as [|s sources IH]; [done|].
  rewrite fmap_cons, concat_cons, !filter_app, IH.
  by rewrite calls_hold_no_sleep by apply events_of_calls.
Qed.

End TraceFacts.

Section SearchFacts.

Context {content : Type} (E : platform content) (c8 : ascii).

Lemma generate_report_ok (target : string) (results : Dict.t) :
  Forall (λ r, is_Some (PyVal.contains "error" r)) (Dict.values results) →
  generate_report E target results
  = Ok (JDict
          [ ("target", JStr target);
            ("timestamp", JStr (now_isoformat E));
            ("summary", _generate_summary results);
            ("detailed_results", JDict results);
            ("metadata",
             JDict [ ("total_sources", JNum (Z.of_nat (length results)));
                     ("successful_sources",
                      JNum (Z.of_nat (length (filter
                        (λ r, negb <$> PyVal.contains "error" r = Some true)
                        (Dict.values results)))));
                     ("failed_sources",
                      JNum (Z.of_nat (length (filter
                        (λ r, PyVal.contains "error" r = Some true)
                        (Dict.values results))))) ]) ]).
Proof.
  intros Hall. unfold generate_report.
  rewrite (count_where_total (λ r, negb <$> PyVal.contains "error" r)).
  2:{ eapply Forall_impl; [exact Hall|]. intros r [b ->]. by eexists. }
  by rewrite (count_where_total _ _ Hall).
Qed.

Lemma count_where_raises (p : json → option bool) (values : list json) :
  Exists (λ r, p r = None) values → count_where p values = Raise TypeError.
Proof.
  induction 1 as [r values Hr|r values _ IH]; simpl.
  - by rewrite Hr.
  - destruct (p r); [|done]. by rewrite IH.
Qed.

Lemma generate_report_raises (target : string) (results : Dict.t) :
  Exists (λ r, PyVal.contains "error" r = None) (Dict.values results) →
  generate_report E target results = Raise TypeError.
Proof.
  intros Hex. unfold generate_report.
  rewrite (count_where_raises (λ r, negb <$> PyVal.contains "error" r)); [done|].
  eapply Exists_impl; [exact Hex|]. by intros r ->.
Qed.

Lemma fold_email_sources (o : source → json) :
  fold_left (λ acc s, Dict.set (source_name s) (o s) acc) email_sources []
  = (λ s, (source_name s, o s)) <$> email_sources.
Proof. reflexivity. Qed.

Lemma fold_username_sources (o : source → json) :
  fold_left (λ acc s, Dict.set (source_name s) (o s) acc) username_sources []
  = (λ s, (source_name s, o s)) <$> username_sources.
Proof. reflexivity. Qed.

Lemma registry_values (o : source → json) (sources : list source) :
  Dict.values ((λ s, (source_name s, o s)) <$> sources) = o <$> sources.
Proof. unfold Dict.values. induction sources; simpl; [done|]. by f_equal. Qed.

Lemma dict_supports_in (s : source) (target : string) :
  s ≠ Leakcheck → is_Some (PyVal.contains "error" (outcome_of E c8 s target)).
Proof. intros Hs. destruct (outcome_is_dict E c8 s target Hs) as [d ->]. by eexists. Qed.

(** What [comprehensive_search] does once the outcome map is there: build
    the report and save it under the generated name. *)
Lemma save_generated_report (target : string) (results : Dict.t)
    (w : world content) :
  let path :=
    Py.path_join "./reports"
      ("osint_report_"
       +:+ Py.replace_char "." "_" (Py.replace_char "@" "_" target)
       +:+ "_" +:+ now_stamp E +:+ ".json") in
  Forall (λ r, is_Some (PyVal.contains "error" r)) (Dict.values results) →
  writable E path = true →
  ∃ report,
    generate_report E target results = Ok report
    ∧ save_report E reporter report None w
      = (Ok path, Build_world (<[path := json_dump E report]> (files w))
                              (trace w ++ [FsWrite path])).
Proof.
  intros path Hall Hw. eexists. split; [by apply generate_report_ok|].
  unfold save_report, generated_filename. simpl. fold path. run_m.
  by rewrite Hw.
Qed.

(** The search on a target that is classified as a username. *)
Lemma username_search_runs (target : string) (w : world content) :
  let path :=
    Py.path_join "./reports"
      ("osint_report_"
       +:+ Py.replace_char "." "_" (Py.replace_char "@" "_" target)
       +:+ "_" +:+ now_stamp E +:+ ".json") in
  let results :=
    (λ s, (source_name s, outcome_of E c8 s target)) <$> username_sources in
  let events :=
    (events_of E c8 Sherlock target ++ events_of E c8 Maigret target)%list in
  validate_email E target = false →
  validate_username target = true →
  writable E path = true →
  ∃ report,
    generate_report E target results = Ok report
    ∧ comprehensive_search E c8 target "auto" w
      = (JDict [ ("target", JStr target);
                 ("target_type", JStr "username");
                 ("results", JDict results);
                 ("report", report);
                 ("report_saved_to", JStr path);
                 ("timestamp", JStr (now_isoformat E)) ],
         Build_world (<[path := json_dump E report]> (files w))
                     (trace w ++ events ++ [FsWrite path])).
Proof.
  intros path results events Hv Hu Hw.
  pose proof (search_sources_events E c8 false username_sources target []) as Happ.
  rewrite fold_username_sources in Happ. fold results in Happ.
  replace (concat _) with events in Happ
    by (subst events; simpl; by rewrite !app_nil_r).
  destruct (save_generated_report target results
              (Build_world (files w) (trace w ++ events))) as (report & Hr & Hs).
  { subst results. rewrite registry_values. apply Forall_fmap, Forall_forall.
    intros s [->|[->|[]%elem_of_nil]%elem_of_cons]%elem_of_cons;
      by apply dict_supports_in. }
  { exact Hw. }
  exists report. split; [done|].
  unfold comprehensive_search, classify.
  cbn -[search_sources generate_report save_report]. rewrite Hv, Hu.
  unfold mbind, mret, M_bind, M_ret, bind, ret.
  cbn -[search_sources generate_report save_report].
  rewrite Happ, Hr, Hs. simpl. by rewrite <- app_assoc.
Qed.

End SearchFacts.

(** ** The search on a name with a final line feed *)

(** C4.  The classification is only as good as the validators.  The string
    of the two letters ab and a line feed is no valid email and no valid
    username -- the line feed is outside the class -- yet [validate_username]
    accepts it, so the search with automatic classification does not return
    the classification error: the target is classified as a username, both
    username adapters are invoked (each probes its tool), the outcome map has
    their two outcomes, and a report is built and written.  (On a target
    that both validators of the code reject the search does stop at once:
    [comprehensive_search_rejects_unsupported].) *)
Theorem comprehensive_search_runs_on_final_line_feed {content : Type}
    (E : platform content) (c8 : ascii) (w : world content) :
  let target := "ab" +:+ String Py.LF "" in
  let path :=
    Py.path_join "./reports"
      ("osint_report_" +:+ target +:+ "_" +:+ now_stamp E +:+ ".json") in
  let results :=
    (λ s, (source_name s, outcome_of E c8 s target)) <$> username_sources in
  validate_email E target = false →
  writable E path = true →
  Py.all_chars username_char target = false
  ∧ validate_username target = true
  ∧ (∀ s w', invoke E c8 s target w'
             = (outcome_of E c8 s target,
                Build_world (files w') (trace w' ++ events_of E c8 s target)))
  ∧ ∃ report sherlock_rest maigret_rest,
      events_of E c8 Sherlock target
      = Spawn (Args ["sherlock"; "--version"]) None :: sherlock_rest
      ∧ events_of E c8 Maigret target
        = Spawn (Args ["maigret"; "--version"]) None :: maigret_rest
      ∧ generate_report E target results = Ok report
      ∧ comprehensive_search E c8 target "auto" w
        = (JDict [ ("target", JStr target);
                   ("target_type", JStr "username");
                   ("results", JDict results);
                   ("report", report);
                   ("report_saved_to", JStr path);
                   ("timestamp", JStr (now_isoformat E)) ],
           Build_world (<[path := json_dump E report]> (files w))
             (trace w
              ++ (Spawn (Args ["sherlock"; "--version"]) None :: sherlock_rest)
              ++ (Spawn (Args ["maigret"; "--version"]) None :: maigret_rest)
              ++ [FsWrite path])).
Proof.
  intros target path results Hv Hw.
  split; [done|]. split; [done|].
  split; [intros s w'; apply invoke_events|].
  destruct (username_source_probes E c8 target eq_refl) as [[r1 H1] [r2 H2]].
  destruct (username_search_runs E c8 target w Hv eq_refl Hw) as (report & Hr & Hs).
  exists report, r1, r2. split; [done|]. split; [done|]. split; [done|].
  rewrite Hs, H1, H2. by rewrite <- !app_assoc.
Qed.

Lemma comprehensive_search_runs_on_final_line_feed_witness :
  let target := "ab" +:+ String Py.LF "" in
  let path :=
    Py.path_join "./reports"
      ("osint_report_" +:+ target +:+ "_" +:+ now_stamp Demo.host +:+ ".json") in
  let results :=
    (λ s, (source_name s, outcome_of Demo.host "$" s target)) <$> username_sources in
  Py.all_chars username_char target = false
  ∧ validate_username target = true
  ∧ (∀ s w', invoke Demo.host "$" s target w'
             = (outcome_of Demo.host "$" s target,
                Build_world (files w') (trace w' ++ events_of Demo.host "$" s target)))
  ∧ ∃ report sherlock_rest maigret_rest,
      events_of Demo.host "$" Sherlock target
      = Spawn (Args ["sherlock"; "--version"]) None :: sherlock_rest
      ∧ events_of Demo.host "$" Maigret target
        = Spawn (Args ["maigret"; "--version"]) None :: maigret_rest
      ∧ generate_report Demo.host target results = Ok report
      ∧ comprehensive_search Demo.host "$" target "auto" Demo.start
        = (JDict [ ("target", JStr target);
                   ("target_type", JStr "username");
                   ("results", JDict results);
                   ("report", report);
                   ("report_saved_to", JStr path);
                   ("timestamp", JStr (now_isoformat Demo.host)) ],
           Build_world (<[path := json_dump Demo.host report]> (files Demo.start))
             (trace Demo.start
              ++ (Spawn (Args ["sherlock"; "--version"]) None :: sherlock_rest)
              ++ (Spawn (Args ["maigret"; "--version"]) None :: maigret_rest)
              ++ [FsWrite path])).
Proof.
  apply (comprehensive_search_runs_on_final_line_feed Demo.host "$" Demo.start);
    reflexivity.
Defined.

(** What the search on these three characters does where both tools are
    installed: the tools are run on the two letters. *)
Example final_line_feed_search_trace :
  let r := comprehensive_search Demo.host "$" ("ab" +:+ String Py.LF "") "auto"
             Demo.start in
  let path :=
    "./reports/osint_report_ab" +:+ String Py.LF "_20240501_120000.json" in
  trace r.2
  = [ Spawn (Args ["sherlock"; "--version"]) None;
      Spawn (Args ["sherlock"; "ab"; "--print-found"]) (Some 180%Z);
      Spawn (Args ["maigret"; "--version"]) None;
      Spawn (Args ["maigret"; "ab"; "--print-found"]) (Some 180%Z);
      FsWrite path ]
  ∧ is_Some (files r.2 !! path)
  ∧ getitem "target_type" r.1 = Ok (JStr "username").
Proof. vm_compute. split; [done|]. split; [by eexists|done]. Qed.

(** ** More on the search *)

(** X5.  [generate_report] raises exactly when some outcome of the map does
    not support the test ['error' in r] (null, a number or a boolean, which
    only the leak-check adapter can return); otherwise it returns a
    report. *)
Theorem generate_report_raises_iff {content : Type} (E : platform content)
    (target : string) (results : Dict.t) :
  (∃ e, generate_report E target results = Raise e)
  ↔ Exists (λ r, PyVal.contains "error" r = None) (Dict.values results).
Proof.
  split.
  - intros [e He].
    destruct (decide (Exists (λ r, PyVal.contains "error" r = None)
                             (Dict.values results))) as [|Hn]; [done|].
    rewrite generate_report_ok in He; [done|].
    apply Forall_forall. intros r Hr.
    destruct (PyVal.contains "error" r) eqn:Hc; [by eexists|].
    destruct Hn. apply Exists_exists. eauto.
  - intros H. exists TypeError. by apply generate_report_raises.
Qed.


(** X6.  A search on a valid email, when the leak-check outcome supports
    ['error' in r] and the report file can be written: the outcome map has
    one entry per email source, in the order of the registry, each holding
    what that source returns on its own in any world; the report of that map
    is written under the generated name and returned.  Apart from that one
    file the world only gains, source after source, what the source adds on
    its own -- requests and process starts -- and then a pause of one second:
    seven pauses of one second, whichever sources failed. *)
Theorem email_search_persists_report {content : Type} (E : platform content)
    (c8 : ascii) (target : string) (w : world content) :
  let path :=
    Py.path_join "./reports"
      ("osint_report_"
       +:+ Py.replace_char "." "_" (Py.replace_char "@" "_" target)
       +:+ "_" +:+ now_stamp E +:+ ".json") in
  let results :=
    (λ s, (source_name s, outcome_of E c8 s target)) <$> email_sources in
  let events :=
    concat ((λ s, events_of E c8 s target ++ [Sleep 1])%list <$> email_sources) in
  validate_email E target = true →
  is_Some (PyVal.contains "error" (outcome_of E c8 Leakcheck target)) →
  writable E path = true →
  (∀ s w', invoke E c8 s target w'
           = (outcome_of E c8 s target,
              Build_world (files w') (trace w' ++ events_of E c8 s target)))
  ∧ (∀ s, forallb is_call (events_of E c8 s target) = true)
  ∧ filter (λ e, is_sleep e = true) events = replicate 7 (Sleep 1)
  ∧ ∃ report,
    generate_report E target results = Ok report
    ∧ comprehensive_search E c8 target "auto" w
      = (JDict [ ("target", JStr target);
                 ("target_type", JStr "email");
                 ("results", JDict results);
                 ("report", report);
                 ("report_saved_to", JStr path);
                 ("timestamp", JStr (now_isoformat E)) ],
         Build_world (<[path := json_dump E report]> (files w))
                     (trace w ++ events ++ [FsWrite path])).
Proof.
  intros path results events Hv Hleak Hw.
  split; [intros s w'; apply invoke_events|].
  split; [intros s; apply events_of_calls|].
  split; [apply pauses_of_email_loop|].
  pose proof (search_sources_events E c8 true email_sources target []) as Happ.
  rewrite fold_email_sources in Happ. fold results events in Happ.
  destruct (save_generated_report E target results
              (Build_world (files w) (trace w ++ events))) as (report & Hr & Hs).
  { subst results. rewrite registry_values. apply Forall_fmap, Forall_forall.
    intros s _. destruct s; first [exact Hleak|by apply dict_supports_in]. }
  { exact Hw. }
  exists report. split; [done|].
  unfold comprehensive_search, classify.
  cbn -[search_sources generate_report save_report]. rewrite Hv.
  unfold mbind, mret, M_bind, M_ret, bind, ret.
  cbn -[search_sources generate_report save_report].
  rewrite Happ, Hr, Hs. simpl. by rewrite <- app_assoc.
Qed.

Lemma email_search_persists_report_witness :
  let events :=
    concat ((λ s, events_of Demo.host "$" s "user@example.com" ++ [Sleep 1])%list
              <$> email_sources) in
  (∀ s w', invoke Demo.host "$" s "user@example.com" w'
           = (outcome_of Demo.host "$" s "user@example.com",
              Build_world (files w')
                (trace w' ++ events_of Demo.host "$" s "user@example.com")))
  ∧ (∀ s, forallb is_call (events_of Demo.host "$" s "user@example.com") = true)
  ∧ filter (λ e, is_sleep e = true) events = replicate 7 (Sleep 1)
  ∧ ∃ report,
    generate_report Demo.host "user@example.com"
      ((λ s, (source_name s, outcome_of Demo.host "$" s "user@example.com"))
         <$> email_sources) = Ok report
    ∧ comprehensive_search Demo.host "$" "user@example.com" "auto" Demo.start
      = (JDict [ ("target", JStr "user@example.com");
                 ("target_type", JStr "email");
                 ("results",
                  JDict ((λ s, (source_name s,
                                outcome_of Demo.host "$" s "user@example.com"))
                           <$> email_sources));
                 ("report", report);
                 ("report_saved_to",
                  JStr "./reports/osint_report_user_example_com_20240501_120000.json");
                 ("timestamp", JStr "2024-05-01T12:00:00") ],
         Build_world
           (<["./reports/osint_report_user_example_com_20240501_120000.json"
              := report]> ∅)
           ([] ++ events ++
            [FsWrite "./reports/osint_report_user_example_com_20240501_120000.json"])).
Proof.
  apply (email_search_persists_report Demo.host "$" "user@example.com" Demo.start).
  - reflexivity.
  - vm_compute. by eexists.
  - reflexivity.
Defined.

(** X7.  A search on a valid username (that is no valid email), when the
    report file can be written: the outcome map holds the outcomes of
    [sherlock] and [maigret], in that order; the report is written and
    returned; before the write the trace only gains what the two sources
    add on their own, and these are process starts: no request over HTTP, no
    pause. *)
Theorem username_search_persists_report {content : Type} (E : platform content)
    (c8 : ascii) (target : string) (w : world content) :
  let path :=
    Py.path_join "./reports"
      ("osint_report_"
       +:+ Py.replace_char "." "_" (Py.replace_char "@" "_" target)
       +:+ "_" +:+ now_stamp E +:+ ".json") in
  let results :=
    (λ s, (source_name s, outcome_of E c8 s target)) <$> username_sources in
  let events :=
    (events_of E c8 Sherlock target ++ events_of E c8 Maigret target)%list in
  validate_email E target = false →
  validate_username target = true →
  writable E path = true →
  (∀ s w', invoke E c8 s target w'
           = (outcome_of E c8 s target,
              Build_world (files w') (trace w' ++ events_of E c8 s target)))
  ∧ forallb is_spawn events = true
  ∧ ∃ report,
    generate_report E target results = Ok report
    ∧ comprehensive_search E c8 target "auto" w
      = (JDict [ ("target", JStr target);
                 ("target_type", JStr "username");
                 ("results", JDict results);
                 ("report", report);
                 ("report_saved_to", JStr path);
                 ("timestamp", JStr (now_isoformat E)) ],
         Build_world (<[path := json_dump E report]> (files w))
                     (trace w ++ events ++ [FsWrite path])).
Proof.
  intros path results events Hv Hu Hw.
  split; [intros s w'; apply invoke_events|].
  split; [|by apply username_search_runs].
  subst events. rewrite forallb_app, !events_of_spawns; [done| |];
    repeat first [by apply list_elem_of_here|apply list_elem_of_further].
Qed.

Lemma username_search_persists_report_witness :
  let events :=
    (events_of Demo.host "$" Sherlock "octocat"
     ++ events_of Demo.host "$" Maigret "octocat")%list in
  (∀ s w', invoke Demo.host "$" s "octocat" w'
           = (outcome_of Demo.host "$" s "octocat",
              Build_world (files w') (trace w' ++ events_of Demo.host "$" s "octocat")))
  ∧ forallb is_spawn events = true
  ∧ ∃ report,
    generate_report Demo.host "octocat"
      ((λ s, (source_name s, outcome_of Demo.host "$" s "octocat"))
         <$> username_sources) = Ok report
    ∧ comprehensive_search Demo.host "$" "octocat" "auto" Demo.start
      = (JDict [ ("target", JStr "octocat");
                 ("target_type", JStr "username");
                 ("results",
                  JDict ((λ s, (source_name s, outcome_of Demo.host "$" s "octocat"))
                           <$> username_sources));
                 ("report", report);
                 ("report_saved_to",
                  JStr "./reports/osint_report_octocat_20240501_120000.json");
                 ("timestamp", JStr "2024-05-01T12:00:00") ],
         Build_world
           (<["./reports/osint_report_octocat_20240501_120000.json" := report]> ∅)
           ([] ++ events ++
            [FsWrite "./reports/osint_report_octocat_20240501_120000.json"])).
Proof.
  apply (username_search_persists_report Demo.host "$" "octocat" Demo.start);
    reflexivity.
Defined.

(** X8.  One source can abort the whole search: when the leak-check outcome
    does not support ['error' in r] (the service answered 200 with null, a
    number or a boolean), the search on a valid email returns the general
    search error and no report is written, although all seven sources were
    invoked: the world it leaves is the world after the loop over the seven
    sources, which has computed the whole outcome map. *)
Theorem leakcheck_scalar_aborts_search {content : Type} (E : platform content)
    (c8 : ascii) (target : string) (w : world content) :
  let results :=
    (λ s, (source_name s, outcome_of E c8 s target)) <$> email_sources in
  let after_sources :=
    Build_world (files w)
      (trace w ++ concat ((λ s, events_of E c8 s target ++ [Sleep 1])%list
                            <$> email_sources)) in
  validate_email E target = true →
  PyVal.contains "error" (outcome_of E c8 Leakcheck target) = None →
  (∀ s w', invoke E c8 s target w'
           = (outcome_of E c8 s target,
              Build_world (files w') (trace w' ++ events_of E c8 s target)))
  ∧ search_sources E c8 true email_sources target [] w = (results, after_sources)
  ∧ comprehensive_search E c8 target "auto" w
    = (JDict [("error", JStr ("خطأ في البحث الشامل: " +:+ str_exn E TypeError))],
       after_sources).
Proof.
  intros results after_sources Hv Hleak.
  split; [intros s w'; apply invoke_events|].
  pose proof (search_sources_events E c8 true email_sources target []) as Happ.
  rewrite fold_email_sources in Happ. fold results in Happ.
  split; [apply Happ|].
  assert (generate_report E target results = Raise TypeError) as Hr.
  { apply generate_report_raises. subst results. rewrite registry_values.
    apply Exists_exists. exists (outcome_of E c8 Leakcheck target).
    split; [|done]. apply list_elem_of_fmap. exists Leakcheck.
    split; [done|]. unfold email_sources. set_solver. }
  unfold comprehensive_search, classify.
  cbn -[search_sources generate_report save_report]. rewrite Hv.
  unfold mbind, mret, M_bind, M_ret, bind, ret.
  cbn -[search_sources generate_report save_report].
  by rewrite Happ, Hr.
Qed.

Lemma leakcheck_scalar_aborts_search_witness :
  let results :=
    (λ s, (source_name s, outcome_of Quiet.null_leak "$" s "user@example.com"))
      <$> email_sources in
  let after_sources :=
    Build_world (files Demo.start)
      (trace Demo.start
       ++ concat ((λ s, events_of Quiet.null_leak "$" s "user@example.com"
                        ++ [Sleep 1])%list <$> email_sources)) in
  (∀ s w', invoke Quiet.null_leak "$" s "user@example.com" w'
           = (outcome_of Quiet.null_leak "$" s "user@example.com",
              Build_world (files w')
                (trace w' ++ events_of Quiet.null_leak "$" s "user@example.com")))
  ∧ search_sources Quiet.null_leak "$" true email_sources "user@example.com" []
      Demo.start = (results, after_sources)
  ∧ comprehensive_search Quiet.null_leak "$" "user@example.com" "auto" Demo.start
    = (JDict [("error", JStr "خطأ في البحث الشامل: error")], after_sources).
Proof.
  apply (leakcheck_scalar_aborts_search Quiet.null_leak "$" "user@example.com"
           Demo.start); reflexivity.
Defined.

(** X9.  An explicit target type other than auto, email and username is not
    rejected: no source is invoked, no validation takes place, and a report
    with zero sources is written and returned. *)
Theorem unknown_type_searches_nothing {content : Type} (E : platform content)
    (c8 : ascii) (target target_type : string) (w : world content) :
  let path :=
    Py.path_join "./reports"
      ("osint_report_"
       +:+ Py.replace_char "." "_" (Py.replace_char "@" "_" target)
       +:+ "_" +:+ now_stamp E +:+ ".json") in
  target_type ≠ "auto" → target_type ≠ "email" → target_type ≠ "username" →
  writable E path = true →
  ∃ report,
    generate_report E target [] = Ok report
    ∧ rbind (getitem "metadata" report) (getitem "total_sources") = Ok (JNum 0)
    ∧ comprehensive_search E c8 target target_type w
      = (JDict [ ("target", JStr target);
                 ("target_type", JStr target_type);
                 ("results", JDict []);
                 ("report", report);
                 ("report_saved_to", JStr path);
                 ("timestamp", JStr (now_isoformat E)) ],
         Build_world (<[path := json_dump E report]> (files w))
                     (trace w ++ [FsWrite path])).
Proof.
  intros path Ha He Hu Hw.
  destruct (save_generated_report E target [] w) as (report & Hr & Hs);
    [by apply Forall_nil|exact Hw|].
  exists report. split; [done|]. split.
  { rewrite generate_report_ok in Hr by constructor.
    injection Hr as <-. reflexivity. }
  unfold comprehensive_search, classify.
  apply String.eqb_neq in Ha, He, Hu. rewrite Ha.
  cbn -[generate_report save_report]. rewrite He, Hu.
  unfold mbind, mret, M_bind, M_ret, bind, ret.
  cbn -[generate_report save_report].
  by rewrite Hr, Hs.
Qed.

Lemma unknown_type_searches_nothing_witness :
  ∃ report,
    generate_report Demo.host "user@example.com" [] = Ok report
    ∧ rbind (getitem "metadata" report) (getitem "total_sources") = Ok (JNum 0)
    ∧ comprehensive_search Demo.host "$" "user@example.com" "phone" Demo.start
      = (JDict [ ("target", JStr "user@example.com");
                 ("target_type", JStr "phone");
                 ("results", JDict []);
                 ("report", report);
                 ("report_saved_to",
                  JStr "./reports/osint_report_user_example_com_20240501_120000.json");
                 ("timestamp", JStr "2024-05-01T12:00:00") ],
         Build_world
           (<["./reports/osint_report_user_example_com_20240501_120000.json"
              := report]> ∅)
           ([] ++
            [FsWrite "./reports/osint_report_user_example_com_20240501_120000.json"])).
Proof.
  apply (unknown_type_searches_nothing Demo.host "$" "user@example.com" "phone"
           Demo.start); done.
Defined.

(** ** More on the adapters *)

(** X10.  Every adapter validates before it acts: on a target that fails
    its validation it returns the validation failure and leaves the world as
    it was (no request, no process). *)
Theorem invalid_target_calls_nothing {content : Type} (E : platform content)
    (c8 : ascii) (s : source) (target : string) (w : world content) :
  (s ∈ email_sources → validate_email E target = false →
   invoke E c8 s target w
   = (JDict [("error", JStr "عنوان بريد إلكتروني غير صحيح")], w))
  ∧ (s ∈ username_sources → validate_username target = false →
     invoke E c8 s target w = (JDict [("error", JStr "اسم مستخدم غير صحيح")], w)).
Proof.
  split; intros Hs Hv; destruct s; simpl;
    unfold haveibeenpwned, hunterio, leakcheck, emailrep, clearbit, holehe,
      socialscan, sherlock, maigret;
    rewrite ?Hv; try done;
    exfalso; unfold email_sources, username_sources in Hs;
    repeat (apply elem_of_cons in Hs as [Hs'|Hs]; [discriminate|]);
    by apply elem_of_nil in Hs.
Qed.

Lemma invalid_target_calls_nothing_witness :
  invoke Demo.host "$" Socialscan "not-an-address" Demo.start
  = (JDict [("error", JStr "عنوان بريد إلكتروني غير صحيح")], Demo.start)
  ∧ invoke Demo.host "$" Sherlock "ab" Demo.start
    = (JDict [("error", JStr "اسم مستخدم غير صحيح")], Demo.start).
Proof.
  split.
  - apply (invalid_target_calls_nothing Demo.host "$" Socialscan "not-an-address"
             Demo.start); [unfold email_sources; set_solver|reflexivity].
  - apply (invalid_target_calls_nothing Demo.host "$" Sherlock "ab" Demo.start);
      [unfold username_sources; set_solver|reflexivity].
Defined.

(** X11.  The four adapters that need an API key send nothing without it:
    with the key unset (or empty) each returns its missing-key failure and
    leaves the world as it was. *)
Theorem missing_key_sends_nothing {content : Type} (E : platform content)
    (email : string) (w : world content) :
  validate_email E email = true →
  (api_key E "HIBP_API_KEY" = None →
   haveibeenpwned E email w
   = (JDict [("error", JStr "مفتاح API مطلوب لـ HaveIBeenPwned")], w))
  ∧ (api_key E "HUNTER_API_KEY" = None →
     hunterio E email w
     = (JDict [("error", JStr "مفتاح API مطلوب لـ Hunter.io")], w))
  ∧ (api_key E "LEAKCHECK_API_KEY" = None →
     leakcheck E email w
     = (JDict [("error", JStr "مفتاح API مطلوب لـ LeakCheck")], w))
  ∧ (api_key E "CLEARBIT_API_KEY" = None →
     clearbit E email w
     = (JDict [("error", JStr "مفتاح API مطلوب لـ Clearbit")], w)).
Proof.
  intros Hv. unfold haveibeenpwned, hunterio, leakcheck, clearbit.
  rewrite Hv. simpl. repeat split; by intros ->.
Qed.

Lemma missing_key_sends_nothing_witness :
  haveibeenpwned Quiet.keyless "user@example.com" Demo.start
  = (JDict [("error", JStr "مفتاح API مطلوب لـ HaveIBeenPwned")], Demo.start)
  ∧ hunterio Quiet.keyless "user@example.com" Demo.start
    = (JDict [("error", JStr "مفتاح API مطلوب لـ Hunter.io")], Demo.start)
  ∧ leakcheck Quiet.keyless "user@example.com" Demo.start
    = (JDict [("error", JStr "مفتاح API مطلوب لـ LeakCheck")], Demo.start)
  ∧ clearbit Quiet.keyless "user@example.com" Demo.start
    = (JDict [("error", JStr "مفتاح API مطلوب لـ Clearbit")], Demo.start).
Proof.
  destruct (missing_key_sends_nothing Quiet.keyless "user@example.com" Demo.start
              eq_refl) as (H1 & H2 & H3 & H4).
  split; [apply H1; reflexivity|].
  split; [apply H2; reflexivity|].
  split; [apply H3; reflexivity|apply H4; reflexivity].
Defined.

(** X12.  A tool whose probe fails is never run: when [tool --version]
    cannot be started or exits with a non-zero status, [safe_subprocess_call]
    reports the tool as unavailable and the probe is the only process it
    started. *)
Theorem missing_tool_is_never_run {content : Type} (E : platform content)
    (cmd0 : string) (args : list string) (timeout : Z) (w : world content) :
  subprocess_run E (Args [cmd0; "--version"]) = Raise FileNotFoundError
  ∨ subprocess_run E (Args [cmd0; "--version"]) = Raise CalledProcessError
  ∨ (∃ p, subprocess_run E (Args [cmd0; "--version"]) = Ok p
          ∧ returncode p ≠ 0%Z) →
  safe_subprocess_call E (Args (cmd0 :: args)) timeout w
  = (JDict [("error", JStr ("الأمر غير متوفر: " +:+ cmd0))],
     Build_world (files w)
                 (trace w ++ [Spawn (Args [cmd0; "--version"]) None])).
Proof.
  intros H. unfold safe_subprocess_call, _command_exists, run. run_m.
  destruct H as [->|[->|(p & -> & Hp)]]; simpl; try done.
  apply Z.eqb_neq in Hp. by rewrite Hp.
Qed.

Lemma missing_tool_is_never_run_witness :
  safe_subprocess_call Quiet.host (Args ["sherlock"; "octocat"; "--print-found"])
    180 Demo.start
  = (JDict [("error", JStr "الأمر غير متوفر: sherlock")],
     Build_world ∅ ([] ++ [Spawn (Args ["sherlock"; "--version"]) None])).
Proof.
  apply (missing_tool_is_never_run Quiet.host "sherlock"
           ["octocat"; "--print-found"] 180 Demo.start).
  left. reflexivity.
Defined.

(** X13.  [safe_subprocess_call] succeeds exactly when the command is not
    empty, the probe exits with 0 and the command itself exits with 0; the
    outcome is then the captured output with status success.  In every other
    case the outcome holds the key [error]. *)
Theorem safe_subprocess_call_success_iff {content : Type} (E : platform content)
    (cmd : argv) (timeout : Z) (w : world content) :
  let outcome := (safe_subprocess_call E cmd timeout w).1 in
  (PyVal.contains "error" outcome = Some false
   ↔ ∃ cmd0 p q,
       first_arg cmd = Ok cmd0
       ∧ subprocess_run E (Args [cmd0; "--version"]) = Ok p ∧ returncode p = 0%Z
       ∧ subprocess_run E cmd = Ok q ∧ returncode q = 0%Z
       ∧ outcome = JDict [("output", JStr (stdout q)); ("status", JStr "success")])
  ∧ (PyVal.contains "error" outcome = Some false
     ∨ PyVal.contains "error" outcome = Some true).
Proof.
  unfold safe_subprocess_call, _command_exists, run. run_m.
  destruct (first_arg cmd) as [cmd0|e0]; simpl.
  2:{ split; [|by right]. split; [done|]. by intros (? & ? & ? & [=] & _). }
  destruct (subprocess_run E (Args [cmd0; "--version"])) as [p|e] eqn:Hp; simpl.
  2:{ split; [|destruct e; by right].
      split; [destruct e; done|].
      intros (? & ? & ? & [= <-] & Hp' & _). by rewrite Hp in Hp'. }
  destruct (returncode p =? 0)%Z eqn:Hrc; simpl.
  2:{ split; [|by right]. split; [done|].
      intros (? & ? & ? & [= <-] & Hp' & Hz & _).
      rewrite Hp in Hp'. injection Hp' as <-. apply Z.eqb_neq in Hrc. done. }
  apply Z.eqb_eq in Hrc.
  destruct (subprocess_run E cmd) as [q|e] eqn:Hq; simpl.
  2:{ split; [|destruct e; by right].
      split; [destruct e; done|].
      by intros (? & ? & ? & _ & _ & _ & [=] & _). }
  destruct (returncode q =? 0)%Z eqn:Hrq; simpl.
  - apply Z.eqb_eq in Hrq. split; [|by left]. split; [|done].
    intros _. by exists cmd0, p, q.
  - split; [|by right]. split; [done|].
    intros (? & ? & q' & _ & _ & _ & [= <-] & Hz & _).
    apply Z.eqb_neq in Hrq. done.
Qed.

Lemma handled_404_is_success_witness :
  (haveibeenpwned Quiet.host "user@example.com" Demo.start).1
  = JDict [ ("status", JStr "clean"); ("breach_count", JNum 0);
            ("message", JStr "لم يتم العثور على تسريبات") ]
  ∧ (emailrep Quiet.host "user@example.com" Demo.start).1 = not_found
  ∧ (clearbit Quiet.host "user@example.com" Demo.start).1 = not_found.
Proof.
  destruct (handled_404_is_success Quiet.host "user@example.com" "secret"
              {| status_code := 404; text := "Not Found";
                 json_body := Raise (OtherException "JSONDecodeError") |}
              Demo.start eq_refl eq_refl) as (H1 & H2 & H3).
  split; [apply H1; reflexivity|].
  split; [apply H2; reflexivity|apply H3; reflexivity].
Defined.

Lemma summary_of_list_witness :
  _generate_summary [("haveibeenpwned", Demo.four_breaches)]
  = JDict [ ("risk_level", JStr "high"); ("breaches_found", JBool true);
            ("social_accounts", JNum 0); ("email_reputation", JStr "unknown") ].
Proof.
  apply (summary_of_list [("haveibeenpwned", Demo.four_breaches)]
           [ Demo.breach "Adobe" "2013-10-04"; Demo.breach "LinkedIn" "2012-05-05";
             Demo.breach "Dropbox" "2012-07-01"; Demo.breach "Canva" "2019-05-24" ]).
  reflexivity.
Defined.

(** ** More on the routes *)

(** X17.  The download route applies the same guard as the fetch route, but
    answers an unsafe name with status 500, never 400: its [BadRequest] is
    caught by the general handler.  The world is untouched in that case; a
    safe name gives 404 when no file is stored under the joined path and the
    file, sent under the requested name, otherwise. *)
Theorem api_download_report_guard {content : Type} (E : platform content)
    (filename : string) (w : world content) :
  let r := api_download_report E filename w in
  let filepath := Py.path_join (REPORTS_DIRECTORY E) filename in
  let rejected :=
    Py.contains_char "/" filename = true ∨ Py.contains_char "\" filename = true
    ∨ Py.endswith filename ".json" = false in
  (rejected → r = (Answer (failure 500 "خطأ في تحميل التقرير"), w))
  ∧ (¬ rejected → files w !! filepath = None →
     r.1 = Answer (failure 404 "التقرير غير موجود"))
  ∧ (¬ rejected → is_Some (files w !! filepath) →
     r.1 = SendFile filepath filename "application/json")
  ∧ (∀ body, r.1 ≠ Answer (Response 400 body)).
Proof.
  intros r filepath rejected. subst r. unfold api_download_report.
  assert (unsafe_filename filename = true ↔ rejected) as Hguard.
  { unfold unsafe_filename, rejected.
    rewrite !orb_true_iff, negb_true_iff. tauto. }
  destruct (unsafe_filename filename) eqn:Hu; simpl.
  - split; [done|]. split; [|split; [|done]]; intros Hn; destruct Hn; by apply Hguard.
  - run_m. unfold path_exists. fold filepath. split.
    { intros Hr. apply Hguard in Hr. done. }
    split; [|split].
    + intros _ Hnone. rewrite bool_decide_eq_false_2; [done|].
      rewrite Hnone. by intros [? ?].
    + intros _ Hsome. by rewrite bool_decide_eq_true_2.
    + intros body. by case_bool_decide.
Qed.

Lemma api_download_report_guard_witness :
  api_download_report Demo.host "../secret.json" Demo.start
  = (Answer (failure 500 "خطأ في تحميل التقرير"), Demo.start)
  ∧ (api_download_report Demo.host "missing.json" Demo.start).1
    = Answer (failure 404 "التقرير غير موجود").
Proof.
  pose proof (api_download_report_guard Demo.host "../secret.json" Demo.start)
    as (H1 & _).
  pose proof (api_download_report_guard Demo.host "missing.json" Demo.start)
    as (_ & H2 & _).
  split; [apply H1; left; reflexivity|].
  apply H2; [|reflexivity].
  intros [H|[H|H]]; vm_compute in H; discriminate.
Defined.

(** X18.  The search route rejects a body without target, a target that is
    blank after [strip] and a target of more than 100 characters with status
    400, before anything is searched: the world is as it was. *)
Theorem api_search_rejects_early {content : Type} (E : platform content)
    (c8 : ascii) (data : Dict.t) (w : world content) :
  (Dict.get "target" data = None →
   api_search E c8 (JDict data) w = (failure 400 "الهدف مطلوب", w))
  ∧ (∀ raw, Dict.get "target" data = Some (JStr raw) →
       (Py.strip raw = "" →
        api_search E c8 (JDict data) w
        = (failure 400 "الهدف لا يمكن أن يكون فارغاً", w))
       ∧ ((100 < String.length (Py.strip raw))%nat →
          api_search E c8 (JDict data) w = (failure 400 "الهدف طويل جداً", w))).
Proof.
  unfold api_search. split.
  - intros Hnone. destruct data as [|kv data]; [done|]. simpl PyVal.truthy.
    cbn -[Dict.get]. unfold Dict.mem. by rewrite Hnone.
  - intros raw Hsome.
    assert (data ≠ []) as Hne by (by intros ->).
    destruct data as [|kv data]; [done|]. simpl PyVal.truthy.
    cbn -[Dict.get Py.strip String.length Nat.ltb]. unfold Dict.mem, Dict.get_default.
    rewrite Hsome. cbn -[Dict.get Py.strip String.length Nat.ltb]. split.
    + intros ->. done.
    + intros Hlen. destruct (String.eqb_spec (Py.strip raw) "") as [He|_].
      { rewrite He in Hlen. simpl in Hlen. lia. }
      apply Nat.ltb_lt in Hlen. by rewrite Hlen.
Qed.

Lemma api_search_rejects_early_witness :
  api_search Demo.host "$" (JDict [("type", JStr "email")]) Demo.start
  = (failure 400 "الهدف مطلوب", Demo.start)
  ∧ api_search Demo.host "$" (JDict [("target", JStr "   ")]) Demo.start
    = (failure 400 "الهدف لا يمكن أن يكون فارغاً", Demo.start).
Proof.
  pose proof (api_search_rejects_early Demo.host "$" [("type", JStr "email")]
                Demo.start) as [H1 _].
  pose proof (api_search_rejects_early Demo.host "$" [("target", JStr "   ")]
                Demo.start) as [_ H2].
  split; [apply H1; reflexivity|].
  apply (H2 "   "); reflexivity.
Defined.

(** X19.  The search route on a target of supported length that is neither
    a valid email nor a valid username, with the type left out or given as
    auto: status 400 with the classification error, and the world as it
    was. *)
Theorem api_search_unsupported_target {content : Type} (E : platform content)
    (c8 : ascii) (raw : string) (w : world content) :
  Py.strip raw ≠ "" →
  (String.length (Py.strip raw) ≤ 100)%nat →
  validate_email E (Py.strip raw) = false →
  validate_username (Py.strip raw) = false →
  api_search E c8 (JDict [("target", JStr raw)]) w
  = (Response 400 (JDict [ ("success", JBool false);
                           ("error", JStr "نوع الهدف غير مدعوم") ]), w)
  ∧ api_search E c8 (JDict [("target", JStr raw); ("type", JStr "auto")]) w
    = (Response 400 (JDict [ ("success", JBool false);
                             ("error", JStr "نوع الهدف غير مدعوم") ]), w).
Proof.
  intros Hne Hlen He Hu. unfold api_search.
  cbn -[Py.strip String.length Nat.ltb comprehensive_search].
  apply String.eqb_neq in Hne. rewrite Hne.
  apply Nat.ltb_ge in Hlen. rewrite Hlen.
  unfold mbind, mret, M_bind, M_ret, bind, ret, comprehensive_search, classify.
  cbn -[Py.strip String.length Nat.ltb]. by rewrite He, Hu.
Qed.

Lemma api_search_unsupported_target_witness :
  api_search Demo.host "$" (JDict [("target", JStr " ab ")]) Demo.start
  = (Response 400 (JDict [ ("success", JBool false);
                           ("error", JStr "نوع الهدف غير مدعوم") ]), Demo.start)
  ∧ api_search Demo.host "$"
      (JDict [("target", JStr " ab "); ("type", JStr "auto")]) Demo.start
    = (Response 400 (JDict [ ("success", JBool false);
                             ("error", JStr "نوع الهدف غير مدعوم") ]), Demo.start).
Proof.
  apply (api_search_unsupported_target Demo.host "$" " ab " Demo.start);
    [discriminate|vm_compute; lia|reflexivity|reflexivity].
Defined.

(** X20.  The search route ignores whitespace around the target: a body
    and the same body with the target stripped get the same answer and leave
    the same world. *)
Theorem api_search_ignores_outer_whitespace {content : Type}
    (E : platform content) (c8 : ascii) (raw : string) (rest : Dict.t)
    (w : world content) :
  api_search E c8 (JDict (("target", JStr raw) :: rest)) w
  = api_search E c8 (JDict (("target", JStr (Py.strip raw)) :: rest)) w.
Proof.
  unfold api_search.
  cbn -[Py.strip String.length Nat.ltb comprehensive_search search_no_sources].
  by rewrite strip_idempotent.
Qed.

(** X21.  The email check and the username search reject an invalid target
    with status 400 before any source is looked up: the world is as it was,
    whatever sources the body asks for. *)
Theorem routes_reject_invalid_targets {content : Type} (E : platform content)
    (c8 : ascii) (data : Dict.t) (raw : string) (w : world content) :
  (Dict.get "email" data = Some (JStr raw) →
   validate_email E (Py.lower (Py.strip raw)) = false →
   api_email_check E c8 (JDict data) w
   = (failure 400 "عنوان بريد إلكتروني غير صحيح", w))
  ∧ (Dict.get "username" data = Some (JStr raw) →
     validate_username (Py.strip raw) = false →
     api_username_search E c8 (JDict data) w
     = (failure 400 "اسم مستخدم غير صحيح", w)).
Proof.
  unfold api_email_check, api_username_search. split; intros Hsome Hv;
    (destruct data as [|kv data]; [done|]); simpl PyVal.truthy;
    cbn -[Dict.get Py.strip Py.lower validate_username];
    unfold Dict.mem, Dict.get_default; rewrite Hsome;
    cbn -[Dict.get Py.strip Py.lower validate_username];
    rewrite Hv; simpl; by destruct (Dict.get "sources" (kv :: data)).
Qed.

Lemma routes_reject_invalid_targets_witness :
  api_email_check Demo.host "$" (JDict [("email", JStr "nobody")]) Demo.start
  = (failure 400 "عنوان بريد إلكتروني غير صحيح", Demo.start)
  ∧ api_username_search Demo.host "$"
      (JDict [("username", JStr "a b"); ("sources", JList [JStr "maigret"])])
      Demo.start
    = (failure 400 "اسم مستخدم غير صحيح", Demo.start).
Proof.
  split.
  - apply (routes_reject_invalid_targets Demo.host "$" [("email", JStr "nobody")]
             "nobody" Demo.start); reflexivity.
  - apply (routes_reject_invalid_targets Demo.host "$"
             [("username", JStr "a b"); ("sources", JList [JStr "maigret"])]
             "a b" Demo.start); reflexivity.
Defined.

Section DispatchFacts.

Context {content : Type} (E : platform content) (c8 : ascii).

Lemma keys_set {V : Type} (k k' : string) (v : V) (d : list (string * V)) :
  k ∈ Dict.keys (Dict.set k' v d) ↔ k = k' ∨ k ∈ Dict.keys d.
Proof.
  unfold Dict.keys. induction d as [|[k0 v0] d IH]; simpl.
  - rewrite elem_of_cons, !elem_of_nil. tauto.
  - destruct (String.eqb_spec k0 k') as [->|Hne]; simpl;
      rewrite !elem_of_cons; [tauto|]. rewrite IH. tauto.
Qed.

Lemma nodup_set {V : Type} (k : string) (v : V) (d : list (string * V)) :
  NoDup (Dict.keys d) → NoDup (Dict.keys (Dict.set k v d)).
Proof.
  unfold Dict.keys. induction d as [|[k0 v0] d IH]; simpl.
  - intros _. apply NoDup_singleton.
  - rewrite NoDup_cons. intros [Hk0 Hd].
    destruct (String.eqb_spec k0 k) as [->|Hne]; simpl.
    + by apply NoDup_cons.
    + apply NoDup_cons. split; [|by apply IH].
      intros [?|?]%(keys_set k0 k v d); [congruence|done].
Qed.

Lemma get_set_other {V : Type} (k k' : string) (v : V) (d : list (string * V)) :
  k ≠ k' → Dict.get k (Dict.set k' v d) = Dict.get k d.
Proof.
  intros Hne. induction d as [|[k0 v0] d IH]; simpl.
  - destruct (String.eqb_spec k' k); [congruence|done].
  - destruct (String.eqb_spec k0 k') as [->|Hne0]; simpl.
    + destruct (String.eqb_spec k' k); [congruence|done].
    + destruct (String.eqb_spec k0 k); [done|apply IH].
Qed.

(** Only the attribute [async_osint_search] answers a call with a
    coroutine. *)
Lemma call_coroutine (a : attribute) (email : string) (w : world content) :
  (call E c8 a email w).1 = Ok Coroutine ↔ a = AsyncOsintSearch.
Proof.
  destruct a; unfold call, mbind, mret, M_bind, M_ret, bind, ret;
    cbn -[comprehensive_search invoke safe_subprocess_call _command_exists].
  - split; [|done]. by destruct (invoke E c8 s email w).
  - split; [|done]. by destruct (comprehensive_search E c8 email "auto" w).
  - done.
  - split; [|done]. by destruct (safe_subprocess_call E (Program email) 60 w).
  - split; [|done]. by destruct (_command_exists E email w) as [[b|e] w'].
  - done.
  - done.
  - done.
Qed.

Lemma check_sources_spec (names : list string) (email : string)
    (results : list (string * pyobj)) (w : world content) :
  ∃ r w',
    check_sources E c8 (JStr <$> names) email results w = (Ok r, w')
    ∧ (∀ k, k ∈ Dict.keys r
            ↔ k ∈ Dict.keys results ∨ (k ∈ names ∧ hasattr k = true))
    ∧ (NoDup (Dict.keys results) → NoDup (Dict.keys r))
    ∧ (∀ k, k ≠ "async_osint_search" →
            Dict.get k results ≠ Some Coroutine → Dict.get k r ≠ Some Coroutine)
    ∧ (Dict.get "async_osint_search" results = Some Coroutine
       ∨ "async_osint_search" ∈ names →
       Dict.get "async_osint_search" r = Some Coroutine).
Proof.
  revert results w. induction names as [|name names IH]; intros results w.
  - exists results, w. split; [done|].
    split; [intros k; rewrite elem_of_nil; tauto|].
    split; [done|]. split; [done|].
    intros [?|?%elem_of_nil]; done.
  - simpl. unfold hasattr in *.
    destruct (getattr name) as [a|] eqn:Ha.
    + unfold mbind, M_bind, bind.
      destruct (call E c8 a email w) as [r0 w0] eqn:Hcall.
      set (outcome := match r0 with
                      | Ok v => v
                      | Raise e =>
                          Plain (err ("خطأ في " +:+ name +:+ ": " +:+ str_exn E e))
                      end).
      destruct (IH (Dict.set name outcome results) w0)
        as (r & w' & Hrun & Hkeys & Hnodup & Hplain & Hco).
      exists r, w'. split; [done|]. split; [|split; [|split]].
      * intros k. rewrite Hkeys, keys_set, elem_of_cons.
        assert (match getattr name with Some _ => true | None => false end
                = true) as Hn by by rewrite Ha.
        split.
        -- intros [[->|?]|[? ?]];
             [right; split; [by left|done]|by left|right; split; [by right|done]].
        -- intros [?|[[->|?] ?]]; [left; by right|left; by left|by right].
      * intros Hn. by apply Hnodup, nodup_set.
      * intros k Hk Hres. apply Hplain; [done|].
        destruct (decide (k = name)) as [->|Hne].
        -- rewrite dict_get_set. intros [= Hout]. subst outcome.
           destruct r0 as [v|e]; [|done]. subst v.
           pose proof (proj1 (call_coroutine a email w)) as Hc.
           rewrite Hcall in Hc. specialize (Hc eq_refl). subst a.
           revert Ha. unfold getattr. repeat case_match; try done.
           all: intros _;
             repeat match goal with
                    | H : String.eqb _ _ = true |- _ => apply String.eqb_eq in H
                    end; congruence.
        -- by rewrite get_set_other.
      * intros Hin. apply Hco.
        destruct (decide (name = "async_osint_search")) as [->|Hne].
        -- left. rewrite dict_get_set. f_equal. subst outcome.
           assert (a = AsyncOsintSearch) as -> by (by vm_compute in Ha; injection Ha).
           simpl in Hcall. by injection Hcall as <- _.
        -- destruct Hin as [Hin|[?|Hin]%elem_of_cons]; [|congruence|by right].
           left. by rewrite get_set_other.
    + destruct (IH results w) as (r & w' & Hrun & Hkeys & Hnodup & Hplain & Hco).
      exists r, w'. split; [done|]. split; [|split; [done|split; [done|]]].
      * intros k. rewrite Hkeys, elem_of_cons.
        split; [intros [?|[? ?]]; [by left|right; split; [by right|done]]|].
        intros [?|[[Hk'|?] Hk]]; [by left| |by right].
        subst k. rewrite Ha in Hk. discriminate Hk.
      * intros [?|[Heq|?]%elem_of_cons]; [by apply Hco; left| |by apply Hco; right].
        subst name. by vm_compute in Ha.
Qed.

Lemma serialise_spec (results : list (string * pyobj)) :
  (Forall (λ kv, kv.2 ≠ Coroutine) results →
   ∃ d, serialise results = Ok d ∧ Dict.keys d = Dict.keys results)
  ∧ (Exists (λ kv, kv.2 = Coroutine) results → serialise results = Raise TypeError).
Proof.
  induction results as [|[k v] results [IH1 IH2]]; simpl.
  - split; [by eexists|]. by intros ?%Exists_nil.
  - split.
    + intros [Hv Hall]%Forall_cons. destruct v; [|done].
      destruct (IH1 Hall) as (d & -> & Hd). eexists. split; [done|].
      unfold Dict.keys in *. simpl. by rewrite Hd.
    + intros [Hv|Hex]%Exists_cons; simpl in *; [by subst|].
      destruct v; [|done]. by rewrite IH2.
Qed.

Lemma get_in_values {V : Type} (k : string) (v : V) (d : list (string * V)) :
  Dict.get k d = Some v → (k, v) ∈ d.
Proof.
  induction d as [|[k0 v0] d IH]; simpl; [done|].
  destruct (String.eqb_spec k0 k) as [->|]; [intros [= ->]; by left|].
  intros H. right. by apply IH.
Qed.

Lemma in_values_get {V : Type} (k : string) (v : V) (d : list (string * V)) :
  NoDup (Dict.keys d) → (k, v) ∈ d → Dict.get k d = Some v.
Proof.
  unfold Dict.keys. induction d as [|[k0 v0] d IH]; simpl; [by intros _ ?%elem_of_nil|].
  intros [Hk0 Hd]%NoDup_cons [[= -> ->]|Hin]%elem_of_cons.
  - by rewrite String.eqb_refl.
  - destruct (String.eqb_spec k0 k) as [->|]; [|by apply IH].
    destruct Hk0. apply list_elem_of_fmap. by exists (k, v).
Qed.

End DispatchFacts.

(** X22.  What the email check returns for a list of requested names,
    none of them starting with two underscores (the attributes every Python
    object inherits, which the attribute table leaves out): when the name
    [async_osint_search] is among them the answer is status 500 (the
    coroutine it returns cannot be serialised); otherwise the answer is
    status 200 and the results hold exactly the requested names that are
    attributes of the toolkit object, each once. *)
Theorem email_check_result_keys {content : Type} (E : platform content)
    (c8 : ascii) (raw : string) (names : list string) (w : world content) :
  let r := api_email_check E c8
             (JDict [("email", JStr raw); ("sources", JList (JStr <$> names))]) w in
  validate_email E (Py.lower (Py.strip raw)) = true →
  Forall (λ name, String.prefix "__" name = false) names →
  ("async_osint_search" ∈ names →
   r.1 = failure 500 "خطأ في فحص البريد الإلكتروني")
  ∧ ("async_osint_search" ∉ names →
     ∃ results,
       r.1 = Response 200
               (JDict [ ("success", JBool true);
                        ("email", JStr (Py.lower (Py.strip raw)));
                        ("results", JDict results);
                        ("timestamp", JStr (now_isoformat E)) ])
       ∧ (∀ k, k ∈ Dict.keys results ↔ k ∈ names ∧ hasattr k = true)
       ∧ NoDup (Dict.keys results)).
Proof.
  intros r Hv _. subst r. unfold api_email_check.
  cbn -[Py.strip Py.lower check_sources]. rewrite Hv.
  cbn -[Py.strip Py.lower check_sources].
  unfold mbind, mret, M_bind, M_ret, bind, ret.
  destruct (check_sources_spec E c8 names (Py.lower (Py.strip raw)) [] w)
    as (res & w' & Hrun & Hkeys & Hnodup & Hplain & Hco).
  rewrite Hrun. cbn -[Py.strip Py.lower serialise].
  destruct (serialise_spec res) as [Hser Hfail].
  split.
  - intros Hin. rewrite Hfail; [done|].
    apply Exists_exists. exists ("async_osint_search", Coroutine).
    split; [|done]. apply get_in_values, Hco. by right.
  - intros Hnot. destruct Hser as (d & -> & Hd).
    { apply Forall_forall. intros [k v] Hkv Hcor. simpl in Hcor. subst v.
      assert (NoDup (Dict.keys res)) as Hnd by (apply Hnodup; constructor).
      pose proof (in_values_get k Coroutine res Hnd Hkv) as Hget.
      destruct (decide (k = "async_osint_search")) as [->|Hne].
      - assert ("async_osint_search" ∈ Dict.keys res) as Hk.
        { apply list_elem_of_fmap. by exists ("async_osint_search", Coroutine). }
        apply Hkeys in Hk as [Hk|[Hk _]]; [by apply elem_of_nil in Hk|done].
      - by apply (Hplain k Hne). }
    exists d. split; [done|]. rewrite Hd. split.
    + intros k. rewrite Hkeys. split; [intros [?%elem_of_nil|?]; done|by right].
    + apply Hnodup. constructor.
Qed.

Lemma email_check_result_keys_witness :
  ("async_osint_search" ∈ ["emailrep"; "nonsense"; "emailrep"] →
   (api_email_check Quiet.host "$"
      (JDict [ ("email", JStr "user@example.com");
               ("sources", JList (JStr <$> ["emailrep"; "nonsense"; "emailrep"])) ])
      Demo.start).1 = failure 500 "خطأ في فحص البريد الإلكتروني")
  ∧ ("async_osint_search" ∉ ["emailrep"; "nonsense"; "emailrep"] →
     ∃ results,
       (api_email_check Quiet.host "$"
          (JDict [ ("email", JStr "user@example.com");
                   ("sources",
                    JList (JStr <$> ["emailrep"; "nonsense"; "emailrep"])) ])
          Demo.start).1
       = Response 200
           (JDict [ ("success", JBool true);
                    ("email", JStr (Py.lower (Py.strip "user@example.com")));
                    ("results", JDict results);
                    ("timestamp", JStr (now_isoformat Quiet.host)) ])
       ∧ (∀ k, k ∈ Dict.keys results
               ↔ k ∈ ["emailrep"; "nonsense"; "emailrep"] ∧ hasattr k = true)
       ∧ NoDup (Dict.keys results)).
Proof.
  apply (email_check_result_keys Quiet.host "$" "user@example.com"
           ["emailrep"; "nonsense"; "emailrep"] Demo.start).
  - reflexivity.
  - by repeat constructor.
Defined.

(** X23.  The username route with its default source: a username that
    passes validation reaches the tool unchanged.  The route strips it, so
    it holds class characters only and [sanitize_input] changes nothing;
    [sherlock] is probed and then run on exactly the stripped name. *)
Theorem username_route_runs_sherlock {content : Type} (E : platform content)
    (c8 : ascii) (raw : string) (p : completed_process) (w : world content) :
  validate_username (Py.strip raw) = true →
  username_char c8 = false →
  subprocess_run E (Args ["sherlock"; "--version"]) = Ok p →
  returncode p = 0%Z →
  trace (api_username_search E c8 (JDict [("username", JStr raw)]) w).2
  = (trace w ++
     [ Spawn (Args ["sherlock"; "--version"]) None;
       Spawn (Args ["sherlock"; Py.strip raw; "--print-found"]) (Some 180%Z) ])%list.
Proof.
  intros Hv Hc8 Hp Hr.
  assert (sanitize_input c8 (Py.strip raw) = Py.strip raw) as Hsan.
  { assert (Py.all_chars username_char (Py.strip raw) = true) as Hall.
    { apply validate_username_spec in Hv as (_ & t & _ & Ht & [Hs|Hs]);
        [by rewrite Hs|].
      pose proof (strip_last raw Py.LF) as Hlast.
      rewrite Hs, last_char_app_one in Hlast. by specialize (Hlast eq_refl). }
    apply sanitize_input_fixed; [|apply strip_idempotent].
    intros c Hc. apply class_contains; [|done].
    unfold dangerous_chars in Hc.
    repeat (apply elem_of_cons in Hc as [->|Hc]; [done|]).
    by apply elem_of_nil in Hc. }
  pose proof (proj1 (sherlock_maigret_pass_sanitized E c8 (Py.strip raw) p w Hv Hr)
                Hp) as Htrace.
  rewrite Hsan in Htrace.
  unfold api_username_search.
  cbn -[Py.strip sherlock validate_username]. rewrite Hv.
  cbn -[Py.strip sherlock validate_username].
  unfold mbind, mret, M_bind, M_ret, bind, ret.
  cbn -[Py.strip sherlock validate_username].
  destruct (sherlock E c8 (Py.strip raw) w) as [v w0]. simpl in *. done.
Qed.

Lemma username_route_runs_sherlock_witness :
  trace (api_username_search Demo.host "$" (JDict [("username", JStr " octocat ")])
           Demo.start).2
  = ([] ++
     [ Spawn (Args ["sherlock"; "--version"]) None;
       Spawn (Args ["sherlock"; Py.strip " octocat "; "--print-found"])
             (Some 180%Z) ])%list.
Proof.
  apply (username_route_runs_sherlock Demo.host "$" " octocat "
           {| returncode := 0; stdout := "done"; stderr := "" |} Demo.start);
    reflexivity.
Defined.

(** X24.  [async_osint_search] with its default sources returns the
    outcomes of the breach check, the verifier, the reputation service and
    the leak check, in that order, and adds to the trace what these four add
    on their own, which are requests only: no process, no pause, no file. *)
Theorem async_default_sources {content : Type} (E : platform content)
    (c8 : ascii) (target : string) (w : world content) :
  let sources := [Haveibeenpwned; Hunterio; Emailrep; Leakcheck] in
  let events := concat ((λ s, events_of E c8 s target) <$> sources) in
  async_osint_search E c8 target None w
  = (Ok ((λ s, (source_name s, Plain (outcome_of E c8 s target))) <$> sources),
     Build_world (files w) (trace w ++ events))
  ∧ forallb is_request events = true
  ∧ ∀ s w', invoke E c8 s target w'
            = (outcome_of E c8 s target,
               Build_world (files w') (trace w' ++ events_of E c8 s target)).
Proof.
  intros sources events. split; [|split].
  - unfold async_osint_search.
    cbn -[invoke events_of]. unfold mbind, mret, M_bind, M_ret, bind, ret.
    rewrite (invoke_events E c8 Haveibeenpwned target). cbn -[invoke events_of].
    rewrite (invoke_events E c8 Hunterio target). cbn -[invoke events_of].
    rewrite (invoke_events E c8 Emailrep target). cbn -[invoke events_of].
    rewrite (invoke_events E c8 Leakcheck target). cbn -[invoke events_of].
    by rewrite app_nil_r, <- !app_assoc.
  - subst events sources. cbn -[events_of].
    rewrite app_nil_r, !forallb_app, !events_of_requests; [done| | | |];
      repeat first [by apply list_elem_of_here|apply list_elem_of_further].
  - intros s w'. apply invoke_events.
Qed.

(** ** Listing the report directory *)

Section ListingFacts.

Context (D : directory_view).

Implicit Types (h : handle) (reports : list handle).

Lemma insert_newest_perm h reports : insert_newest h reports ≡ₚ h :: reports.
Proof.
  induction reports as [|h' reports IH]; simpl; [done|].
  destruct (String.leb _ _); [done|]. rewrite IH. apply Permutation_swap.
Qed.

Lemma sort_newest_first_perm reports : sort_newest_first reports ≡ₚ reports.
Proof.
  unfold sort_newest_first. induction reports as [|h reports IH]; simpl; [done|].
  by rewrite insert_newest_perm, IH.
Qed.

Lemma insert_newest_sorted h reports :
  Sorted (λ a b, String.leb (created (handle_stat b)) (created (handle_stat a)) = true)
         reports →
  Sorted (λ a b, String.leb (created (handle_stat b)) (created (handle_stat a)) = true)
         (insert_newest h reports).
Proof.
  induction 1 as [|h' reports Hs IH Hhd]; simpl.
  - by repeat constructor.
  - destruct (String.leb (created (handle_stat h')) (created (handle_stat h))) eqn:Hle.
    + repeat constructor; done.
    + assert (String.leb (created (handle_stat h)) (created (handle_stat h')) = true)
        as Hge.
      { destruct (String.leb_total (created (handle_stat h'))
                                   (created (handle_stat h))); [congruence|done]. }
      constructor; [done|].
      destruct reports as [|h'' reports]; simpl; [by constructor|].
      destruct (String.leb (created (handle_stat h'')) (created (handle_stat h)));
        constructor; [done|].
      by apply HdRel_inv in Hhd.
Qed.

Lemma sort_newest_first_sorted reports :
  Sorted (λ a b, String.leb (created (handle_stat b)) (created (handle_stat a)) = true)
         (sort_newest_first reports).
Proof.
  unfold sort_newest_first. induction reports as [|h reports IH]; simpl.
  - constructor.
  - by apply insert_newest_sorted.
Qed.

Lemma collect_spec (dir : string) (names : list string) :
  Forall (λ name, Py.endswith name ".json" = true →
                  ∃ st, stat D (Py.path_join dir name) = Ok st) names →
  ∃ reports,
    collect D dir names = Ok reports
    ∧ handle_filename <$> reports
      = filter (λ name, Py.endswith name ".json" = true) names
    ∧ Forall (λ h, stat D (Py.path_join dir (handle_filename h)) = Ok (handle_stat h))
             reports
    ∧ ∀ c t, count_and_size D dir names c t
             = Ok ((c + Z.of_nat (length reports))%Z,
                   (t + foldr (λ h acc, st_size (handle_stat h) + acc) 0 reports)%Z).
Proof.
  induction 1 as [|name names Hst _ IH]; simpl.
  - exists []. split; [done|]. split; [done|]. split; [constructor|].
    intros c t. simpl. by rewrite !Z.add_0_r.
  - destruct IH as (reports & Hc & Hn & Hs & Hcs).
    destruct (Py.endswith name ".json") eqn:He; simpl.
    + destruct (Hst eq_refl) as [st Hstat]. rewrite Hstat, Hc. simpl.
      eexists. split; [done|]. rewrite filter_cons_True by done. simpl.
      split; [f_equal; exact Hn|]. split; [by constructor|].
      intros c t. rewrite Hcs. simpl length. rewrite Nat2Z.inj_succ.
      do 2 f_equal; lia.
    + exists reports. rewrite filter_cons_False by congruence. done.
Qed.

Lemma collect_fails (dir : string) (names : list string) :
  Exists (λ name, Py.endswith name ".json" = true
                  ∧ ∃ e, stat D (Py.path_join dir name) = Raise e) names →
  (∃ e, collect D dir names = Raise e)
  ∧ ∀ c t, ∃ e, count_and_size D dir names c t = Raise e.
Proof.
  induction 1 as [name names [He [e Hst]]|name names _ [[e IH1] IH2]]; simpl.
  - rewrite He, Hst. simpl. split; [by eexists|]. intros; by eexists.
  - destruct (Py.endswith name ".json").
    + destruct (stat D (Py.path_join dir name)); simpl.
      * rewrite IH1. simpl. split; [by eexists|]. intros. apply IH2.
      * split; [by eexists|]. intros; by eexists.
    + split; [by eexists|]. apply IH2.
Qed.

End ListingFacts.

(** X25.  The report listing, when the directory exists, can be listed and
    every [.json] entry can be inspected: it lists exactly the entries whose
    name ends in [.json], each with what [os.stat] says about it, newest
    first by creation time, and [total] is their number. *)
Theorem api_list_reports_sorted {content : Type} (E : platform content)
    (D : directory_view) (names : list string) :
  let dir := REPORTS_DIRECTORY E in
  dir_exists D dir = true →
  listdir D dir = Ok names →
  Forall (λ name, Py.endswith name ".json" = true →
                  ∃ st, stat D (Py.path_join dir name) = Ok st) names →
  ∃ reports,
    api_list_reports E D
    = Response 200
        (JDict [ ("success", JBool true);
                 ("reports", JList (handle_json <$> reports));
                 ("total", JNum (Z.of_nat (length reports))) ])
    ∧ handle_filename <$> reports
      ≡ₚ filter (λ name, Py.endswith name ".json" = true) names
    ∧ Forall (λ h, stat D (Py.path_join dir (handle_filename h)) = Ok (handle_stat h))
             reports
    ∧ Sorted (λ a b, String.leb (created (handle_stat b)) (created (handle_stat a))
                     = true) reports.
Proof.
  intros dir Hdir Hls Hstat.
  destruct (collect_spec D dir names Hstat) as (reports & Hc & Hn & Hs & _).
  exists (sort_newest_first reports).
  unfold api_list_reports. fold dir. rewrite Hdir, Hls. simpl. rewrite Hc.
  split; [done|]. split; [|split].
  - by rewrite <- Hn, sort_newest_first_perm.
  - by rewrite sort_newest_first_perm.
  - apply sort_newest_first_sorted.
Qed.

Lemma api_list_reports_sorted_witness :
  ∃ reports,
    api_list_reports Demo.host Shelf.view
    = Response 200
        (JDict [ ("success", JBool true);
                 ("reports", JList (handle_json <$> reports));
                 ("total", JNum (Z.of_nat (length reports))) ])
    ∧ handle_filename <$> reports
      ≡ₚ filter (λ name, Py.endswith name ".json" = true)
                ["a.json"; "notes.txt"; "b.json"; "c.json"]
    ∧ Forall (λ h, stat Shelf.view
                     (Py.path_join (REPORTS_DIRECTORY Demo.host) (handle_filename h))
                   = Ok (handle_stat h)) reports
    ∧ Sorted (λ a b, String.leb (created (handle_stat b)) (created (handle_stat a))
                     = true) reports.
Proof.
  apply (api_list_reports_sorted Demo.host Shelf.view
           ["a.json"; "notes.txt"; "b.json"; "c.json"]).
  - reflexivity.
  - reflexivity.
  - repeat constructor; intros H; vm_compute in H; try discriminate;
      eexists; reflexivity.
Defined.

Example list_reports_newest_first :
  api_list_reports Demo.host Shelf.view
  = Response 200
      (JDict [ ("success", JBool true);
               ("reports",
                JList [ JDict [ ("filename", JStr "b.json"); ("size", JNum 300);
                                ("created", JStr "2024-05-03T09:30:00");
                                ("modified", JStr "2024-05-03T09:30:00") ];
                        JDict [ ("filename", JStr "c.json"); ("size", JNum 80);
                                ("created", JStr "2024-05-02T18:45:00");
                                ("modified", JStr "2024-05-02T18:45:00") ];
                        JDict [ ("filename", JStr "a.json"); ("size", JNum 120);
                                ("created", JStr "2024-05-01T10:00:00");
                                ("modified", JStr "2024-05-01T10:00:00") ] ]);
               ("total", JNum 3) ]).
Proof. reflexivity. Qed.

(** X26.  The system information agrees with the listing: on the same
    directory, [reports_count] is the listing's [total] and
    [reports_total_size] the sum of the listed sizes; a directory that cannot
    be listed, or an entry that cannot be inspected, makes both routes answer
    500; without the directory the listing is empty (and has neither
    [success] nor [total]) and the counts are zero. *)
Theorem system_info_agrees_with_listing {content : Type} (E : platform content)
    (D : directory_view) :
  let dir := REPORTS_DIRECTORY E in
  let total r := match r with Response _ body => getitem "total" body end in
  let system key r :=
    match r with
    | Response _ body => rbind (getitem "system" body) (getitem key)
    end in
  (∀ names,
     dir_exists D dir = true →
     listdir D dir = Ok names →
     Forall (λ name, Py.endswith name ".json" = true →
                     ∃ st, stat D (Py.path_join dir name) = Ok st) names →
     ∃ reports,
       collect D dir names = Ok reports
       ∧ total (api_list_reports E D) = Ok (JNum (Z.of_nat (length reports)))
       ∧ system "reports_count" (api_system_info E D)
         = Ok (JNum (Z.of_nat (length reports)))
       ∧ system "reports_total_size" (api_system_info E D)
         = Ok (JNum (foldr (λ h acc, st_size (handle_stat h) + acc)%Z 0%Z reports)))
  ∧ (dir_exists D dir = true →
     (∃ e, listdir D dir = Raise e)
     ∨ (∃ names, listdir D dir = Ok names
          ∧ Exists (λ name, Py.endswith name ".json" = true
                            ∧ ∃ e, stat D (Py.path_join dir name) = Raise e) names) →
     status_of (api_list_reports E D) = 500%Z
     ∧ status_of (api_system_info E D) = 500%Z)
  ∧ (dir_exists D dir = false →
     api_list_reports E D = Response 200 (JDict [("reports", JList [])])
     ∧ system "reports_count" (api_system_info E D) = Ok (JNum 0)
     ∧ system "reports_total_size" (api_system_info E D) = Ok (JNum 0)).
Proof.
  intros dir total system. unfold api_list_reports, api_system_info. fold dir.
  split; [|split].
  - intros names Hdir Hls Hstat. rewrite Hdir, Hls. simpl.
    destruct (collect_spec D dir names Hstat) as (reports & Hc & _ & _ & Hcs).
    exists reports. rewrite Hc, Hcs. simpl.
    split; [done|]. split; [|done].
    do 2 f_equal. f_equal.
    apply Permutation_length, sort_newest_first_perm.
  - intros Hdir [[e Hls]|(names & Hls & Hex)]; rewrite Hdir, Hls; simpl; [done|].
    destruct (collect_fails D dir names Hex) as [[e He] Hcs].
    destruct (Hcs 0%Z 0%Z) as [e' He']. by rewrite He, He'.
  - intros Hdir. by rewrite Hdir.
Qed.

Lemma system_info_agrees_with_listing_witness :
  ∃ reports,
    collect Shelf.view (REPORTS_DIRECTORY Demo.host)
      ["a.json"; "notes.txt"; "b.json"; "c.json"] = Ok reports
    ∧ match api_list_reports Demo.host Shelf.view with
      | Response _ body => getitem "total" body
      end = Ok (JNum (Z.of_nat (length reports)))
    ∧ match api_system_info Demo.host Shelf.view with
      | Response _ body => rbind (getitem "system" body) (getitem "reports_count")
      end = Ok (JNum (Z.of_nat (length reports)))
    ∧ match api_system_info Demo.host Shelf.view with
      | Response _ body =>
          rbind (getitem "system" body) (getitem "reports_total_size")
      end = Ok (JNum (foldr (λ h acc, st_size (handle_stat h) + acc)%Z 0%Z reports)).
Proof.
  apply (system_info_agrees_with_listing Demo.host Shelf.view).
  - reflexivity.
  - reflexivity.
  - repeat constructor; intros H; vm_compute in H; try discriminate;
      eexists; reflexivity.
Defined.
